(** * Session lifecycle of the bookstore API: [AuthService]

    A shallow embedding of [AuthService] (signup, login, logout,
    refreshTokens, googleAuthCallback and their helpers) together with
    the theorems that relate it to the specification of the credential
    and session lifecycle manager.

    The service is an orchestration of four collaborators: the Prisma
    user table, argon2 ([hash] / [verify]), the JWT signer and the
    configuration service, plus the Express response it writes cookies
    to.  The table, the clock and the response are explicit state; the
    hasher, the signer and the configuration are parameters of the
    service, as they are injected in the source. *)

From Stdlib Require Import ZArith Ascii String List Bool.
From stdpp Require Import gmap strings list fin_maps pretty.

Open Scope Z_scope.
Open Scope string_scope.

(** ** Data model *)

(** Modelled from the spec: the [Role] enum of the Prisma schema, which
    the service imports from the generated client ("role (enumerated,
    e.g. standard/admin)").  New rows get the standard role. *)
Inductive Role := STANDARD | ADMIN.

(** A row of the user table, with the columns the service reads or
    strips: [password] is the argon2 digest of the password and
    [refreshToken] the digest of the current refresh token, or null. *)
Record User := mkUser {
  id : Z;
  email : string;
  password : string;
  name : string;
  role : Role;
  refreshToken : option string;
  createdAt : Z;
  updatedAt : Z
}.

Record SignupDto := {
  signup_email : string;
  signup_password : string;
  signup_name : string
}.

Record LoginDto := { login_email : string; login_password : string }.

(** [req.user] of the federated callback. *)
Record AuthUser := { auth_id : Z; auth_email : string; auth_role : Role }.

Record JwtPayload := { sub : Z; payload_role : Role; payload_email : string }.
Record SignOptions := { secret : option string; expiresIn : string }.
Record Tokens := { access_token : string; refresh_token : string }.

(** JavaScript values and objects, for the payloads that are built by
    destructuring with a rest pattern. *)
Inductive Value :=
| VNull
| VNum (z : Z)
| VStr (s : string)
| VRole (r : Role)
| VDate (t : Z).

Abbreviation JsObject := (gmap string Value).

Definition nullable (o : option string) : Value :=
  match o with Some s => VStr s | None => VNull end.

Definition obj_of_user (u : User) : JsObject :=
  <["id" := VNum (id u)]>
  (<["email" := VStr (email u)]>
  (<["password" := VStr (password u)]>
  (<["name" := VStr (name u)]>
  (<["role" := VRole (role u)]>
  (<["refreshToken" := nullable (refreshToken u)]>
  (<["createdAt" := VDate (createdAt u)]>
  (<["updatedAt" := VDate (updatedAt u)]> ∅))))))).

(** [const { k1, ..., kn, ...rest } = o] *)
Definition rest (ks : list string) (o : JsObject) : JsObject :=
  foldr delete o ks.

(** Prisma's [select]: only the listed columns are loaded. *)
Definition select (ks : list string) (o : JsObject) : JsObject :=
  filter (λ kv, bool_decide (kv.1 ∈ ks)) o.

(** ** Exceptions *)

Inductive Message := Text (s : string) | Lines (l : list string).

Inductive Exn :=
| BadRequestException (m : Message)
| ConflictException (m : Message)
| ForbiddenException (m : Message)
| UnauthorizedException (m : Message)
| PrismaClientKnownRequestError (code : string)
| Error (m : string).

Definition is_forbidden (e : Exn) : bool :=
  match e with ForbiddenException _ => true | _ => false end.

(** *** Failures of the store

    Two of the codes of Prisma's known request errors report what a
    call found in the table: P2002, a unique constraint that the insert
    would break, and P2025, a required record that is missing.  The
    calls below raise them from the rows; a failure of the store's own
    has neither code. *)
Definition row_decided (code : string) : bool :=
  bool_decide (code = "P2002") || bool_decide (code = "P2025").

(** A failure that the rows do not decide: a known request error of
    any other code (P2024, the connection pool timing out; P2034, a
    write conflict; ...) or an error of another class. *)
Inductive Fault :=
| KnownRequestError (code : string) (other : row_decided code = false)
| OtherError (m : string).

(** The exception that a store call rejects with. *)
Definition rejection (f : Fault) : Exn :=
  match f with
  | KnownRequestError code _ => PrismaClientKnownRequestError code
  | OtherError m => Error m
  end.

(** ** The world the service runs in *)

Inductive DbOp :=
| OpCreate (e : string)
| OpFindFirst (e : string)
| OpFindUnique (i : Z)
| OpUpdate (i : Z)
| OpUpdateMany.

Inductive ResOp :=
| Cookie (cname value : string) (maxAge : option Z)
| Redirect (url : option string).

Record World := mkWorld {
  users : list User;                 (* the user table, in insertion order *)
  next_id : Z;                       (* its autoincrement sequence *)
  now : Z;                           (* the clock, in seconds *)
  entropy : nat;                     (* salts handed out so far *)
  db_faults : list (option Fault);   (* outcome of the coming store calls *)
  db_log : list DbOp;                (* store calls made, latest first *)
  jwt_calls : nat;                   (* signAsync calls made *)
  res : list ResOp                   (* what was written to the response *)
}.

Definition set_users (f : list User → list User) (w : World) : World :=
  mkWorld (f (users w)) (next_id w) (now w) (entropy w) (db_faults w)
          (db_log w) (jwt_calls w) (res w).

Definition set_next_id (n : Z) (w : World) : World :=
  mkWorld (users w) n (now w) (entropy w) (db_faults w)
          (db_log w) (jwt_calls w) (res w).

Definition set_now (t : Z) (w : World) : World :=
  mkWorld (users w) (next_id w) t (entropy w) (db_faults w)
          (db_log w) (jwt_calls w) (res w).

Definition set_entropy (n : nat) (w : World) : World :=
  mkWorld (users w) (next_id w) (now w) n (db_faults w)
          (db_log w) (jwt_calls w) (res w).

Definition set_db (fs : list (option Fault)) (l : list DbOp) (w : World)
  : World :=
  mkWorld (users w) (next_id w) (now w) (entropy w) fs l (jwt_calls w) (res w).

Definition set_jwt_calls (n : nat) (w : World) : World :=
  mkWorld (users w) (next_id w) (now w) (entropy w) (db_faults w)
          (db_log w) n (res w).

Definition set_res (r : list ResOp) (w : World) : World :=
  mkWorld (users w) (next_id w) (now w) (entropy w) (db_faults w)
          (db_log w) (jwt_calls w) r.

(** ** Computations that may throw *)

Inductive Result (A : Type) :=
| Ok (a : A)
| Throw (e : Exn).
Arguments Ok {A} a.
Arguments Throw {A} e.

(** State is kept when an exception is thrown: nothing is rolled back. *)
Definition M (A : Type) : Type := World → Result A * World.

Definition ret {A} (a : A) : M A := λ w, (Ok a, w).

Definition throw {A} (e : Exn) : M A := λ w, (Throw e, w).

Definition bind {A B} (m : M A) (k : A → M B) : M B := λ w,
  match m w with
  | (Ok a, w') => k a w'
  | (Throw e, w') => (Throw e, w')
  end.

Definition try_catch {A} (body : M A) (handler : Exn → M A) : M A := λ w,
  match body w with
  | (Ok a, w') => (Ok a, w')
  | (Throw e, w') => handler e w'
  end.

Notation "x <- m ;; k" := (bind m (λ x, k))
  (at level 100, m at next level, k at level 200, right associativity).
Notation "m ;;; k" := (bind m (λ _, k))
  (at level 100, k at level 200, right associativity).

(** ** The collaborators that are state *)

(** *** The Prisma user table

    Every call is logged and takes the next entry of [db_faults]: the
    store may fail for a reason of its own, in which case the call
    rejects with that error, a known request error or another, and the
    table is not touched. *)
Definition db_call {A} (op : DbOp) (body : M A) : M A := λ w,
  let w' := set_db (tail (db_faults w)) (op :: db_log w) w in
  match head (db_faults w) with
  | Some (Some f) => (Throw (rejection f), w')
  | _ => body w'
  end.

Definition has_id (i : Z) (u : User) : bool := bool_decide (id u = i).

Definition has_email (e : string) (u : User) : bool :=
  bool_decide (email u = e).

Definition set_refreshToken (v : option string) (u : User) : User :=
  mkUser (id u) (email u) (password u) (name u) (role u) v
         (createdAt u) (updatedAt u).

(** Modelled from the spec: the update timestamp of the User model of
    the Prisma schema ("creation/update timestamps"); a written row
    gets the time of the write. *)
Definition touch (t : Z) (u : User) : User :=
  mkUser (id u) (email u) (password u) (name u) (role u) (refreshToken u)
         (createdAt u) t.

(** [prisma.user.create({ data: { email, password, name } })]: the email
    column is unique, a second row with the same email is refused with
    the known request error P2002.  The columns that the call leaves out
    get the defaults of the schema: the next id, the standard role, no
    fingerprint, the time of the insert. *)
Definition prisma_user_create (e p n : string) : M User :=
  db_call (OpCreate e) (λ w,
    if existsb (has_email e) (users w)
    then (Throw (PrismaClientKnownRequestError "P2002"), w)
    else
      let u := mkUser (next_id w) e p n STANDARD None (now w) (now w) in
      (Ok u,
       set_next_id (next_id w + 1) (set_users (λ us, (us ++ [u])%list) w))).

(** [prisma.user.findFirstOrThrow({ where: { email } })]: the first row
    in table order, or the known request error P2025 that the handler
    of [login] looks for. *)
Definition prisma_user_findFirstOrThrow (e : string) : M User :=
  db_call (OpFindFirst e) (λ w,
    match find (has_email e) (users w) with
    | Some u => (Ok u, w)
    | None => (Throw (PrismaClientKnownRequestError "P2025"), w)
    end).

(** [prisma.user.findUnique({ where: { id }, select })]; the selection
    is applied where the row is turned into an object. *)
Definition prisma_user_findUnique (i : Z) : M (option User) :=
  db_call (OpFindUnique i) (λ w, (Ok (find (has_id i) (users w)), w)).

(** [prisma.user.update({ where: { id }, data })]: P2025 when no row
    has the key. *)
Definition prisma_user_update (i : Z) (data : User → User) : M User :=
  db_call (OpUpdate i) (λ w,
    match find (has_id i) (users w) with
    | Some u =>
        let write u := touch (now w) (data u) in
        (Ok (write u),
         set_users (map (λ u, if has_id i u then write u else u)) w)
    | None => (Throw (PrismaClientKnownRequestError "P2025"), w)
    end).

(** [prisma.user.updateMany({ where, data })]: returns the number of
    rows written, which may be zero. *)
Definition prisma_user_updateMany (where_ : User → bool) (data : User → User)
  : M nat :=
  db_call OpUpdateMany (λ w,
    let write u := touch (now w) (data u) in
    (Ok (length (List.filter where_ (users w))),
     set_users (map (λ u, if where_ u then write u else u)) w)).

(** *** The Express response *)

Definition res_cookie (n v : string) (maxAge : option Z) : M unit := λ w,
  (Ok tt, set_res (res w ++ [Cookie n v maxAge])%list w).

Definition res_redirect (url : option string) : M unit := λ w,
  (Ok tt, set_res (res w ++ [Redirect url])%list w).

(** *** JavaScript truthiness *)

Definition truthy_string (s : string) : bool := negb (bool_decide (s = "")).

(** An object is truthy whatever it holds. *)
Definition truthy_object {A} (o : A) : bool := true.

(** ** The service *)

Section AuthService.

(** argon2: [hash] draws a salt, [verify digest plain] checks a digest. *)
Variable hash : nat → string → string.
Variable verify : string → string → bool.

(** [JwtService.signAsync], settled: [inl] is the reason of a rejected
    promise, [inr] the token.  It reads the clock for the claims it
    adds and is deterministic otherwise. *)
Variable signAsync : JwtPayload → SignOptions → Z → string + string.

(** [ConfigService.get] *)
Variable config_get : string → option string.

Definition argon2_hash (plain : string) : M string := λ w,
  (Ok (hash (entropy w) plain), set_entropy (S (entropy w)) w).

Definition jwt_signAsync (payload : JwtPayload) (options : SignOptions)
  : M (string + string) := λ w,
  (Ok (signAsync payload options (now w)), set_jwt_calls (S (jwt_calls w)) w).

(** Both signing calls are made before [Promise.all] is awaited; the
    pair is there only when both promises are fulfilled. *)
Definition getTokens (userId : Z) (email : string) (role : Role) : M Tokens :=
  let jwtPayload :=
    {| sub := userId; payload_role := role; payload_email := email |} in
  accessToken <- jwt_signAsync jwtPayload
    {| secret := config_get "JWT_ACCESS_SECRET"; expiresIn := "15m" |} ;;
  refreshToken <- jwt_signAsync jwtPayload
    {| secret := config_get "JWT_REFRESH_SECRET"; expiresIn := "7d" |} ;;
  match accessToken, refreshToken with
  | inr accessToken, inr refreshToken =>
      ret {| access_token := accessToken; refresh_token := refreshToken |}
  | inl reason, _ => throw (Error reason)
  | _, inl reason => throw (Error reason)
  end.

Definition updateRtHash (userId : Z) (rt : string) : M unit :=
  hashedRefreshToken <- argon2_hash rt ;;
  prisma_user_update userId (set_refreshToken (Some hashedRefreshToken)) ;;;
  ret tt.

Definition saveTokensInCookies (tokens : Tokens) : M unit :=
  res_cookie "ACCESS_TOKEN" (access_token tokens) (Some 900000) ;;;
  res_cookie "REFRESH_TOKEN" (refresh_token tokens) (Some 604800000).

Definition removeTokensInCookies : M unit :=
  res_cookie "ACCESS_TOKEN" "" (Some 0) ;;;
  res_cookie "REFRESH_TOKEN" "" (Some 0).

(** The catch block of [signup]: a known request error with the code
    P2002 becomes Conflict, anything else is thrown again. *)
Definition signup_catch (error : Exn) : M JsObject :=
  match error with
  | PrismaClientKnownRequestError code =>
      if bool_decide (code = "P2002")
      then throw (ConflictException (Lines ["Email is already in use"]))
      else throw error
  | _ => throw error
  end.

Definition signup (dto : SignupDto) : M JsObject :=
  hashedPassword <- argon2_hash (signup_password dto) ;;
  try_catch
    (user <- prisma_user_create (signup_email dto) hashedPassword
                                (signup_name dto) ;;
     let restOfUser :=
       rest ["password"; "refreshToken"; "createdAt"; "updatedAt"]
            (obj_of_user user) in
     ret restOfUser)
    signup_catch.

Definition login (dto : LoginDto) : M (JsObject * Tokens) :=
  let ERROR := "Email or password incorrect." in
  try_catch
    (user <- prisma_user_findFirstOrThrow (login_email dto) ;;
     let passwordMatch := verify (password user) (login_password dto) in
     if negb passwordMatch then throw (BadRequestException (Text ERROR))
     else
       tokens <- getTokens (id user) (email user) (role user) ;;
       updateRtHash (id user) (refresh_token tokens) ;;;
       saveTokensInCookies tokens ;;;
       let restOfUser :=
         rest ["password"; "refreshToken"; "createdAt"; "updatedAt"]
              (obj_of_user user) in
       ret (restOfUser, tokens))
    (λ error,
       match error with
       | PrismaClientKnownRequestError code =>
           if bool_decide (code = "P2025")
           then throw (UnauthorizedException (Text ERROR))
           else throw error
       | _ => throw error
       end).

Definition logout (userId : Z) : M bool :=
  try_catch
    (prisma_user_updateMany
       (λ u, has_id userId u && bool_decide (refreshToken u ≠ None))
       (set_refreshToken None) ;;;
     removeTokensInCookies ;;;
     ret true)
    (λ error, throw error).

Definition refreshTokens (userId : Z) (rt : string)
  : M (JsObject * Tokens) :=
  user <- prisma_user_findUnique userId ;;
  match user with
  | None => throw (ForbiddenException (Text "Access Denied."))
  | Some user =>
      match refreshToken user with
      | None => throw (ForbiddenException (Text "Access Denied."))
      | Some digest =>
          if negb (truthy_string digest)
          then throw (ForbiddenException (Text "Access Denied."))
          else
            let rtMatches := verify digest rt in
            if negb rtMatches
            then throw (ForbiddenException (Text "Access Denied."))
            else
              tokens <- getTokens (id user) (email user) (role user) ;;
              updateRtHash (id user) (refresh_token tokens) ;;;
              saveTokensInCookies tokens ;;;
              let restOfUser :=
                rest ["refreshToken"]
                     (select ["id"; "name"; "email"; "role"; "refreshToken"]
                             (obj_of_user user)) in
              ret (restOfUser, tokens)
      end
  end.

Definition googleAuthCallback (req_user : AuthUser) : M unit :=
  let id := auth_id req_user in
  let email := auth_email req_user in
  let role := auth_role req_user in
  tokens <- getTokens id email role ;;
  if negb (truthy_object tokens)
  then res_redirect (config_get "CLIENT_ORIGIN")
  else
    updateRtHash id (refresh_token tokens) ;;;
    res_cookie "test" "hola" None ;;;
    saveTokensInCookies tokens.

End AuthService.

(** ** A reference instance of the injected collaborators

    An idealised argon2 and an HS256-style signer, to run the service on
    concrete worlds. *)

Fixpoint salt_string (n : nat) : string :=
  match n with
  | O => EmptyString
  | S n => String "s"%char (salt_string n)
  end.

(** The digest keeps salt and plaintext apart: ["$" salt "$" plain]. *)
Definition ideal_hash (salt : nat) (plain : string) : string :=
  String "$"%char (salt_string salt +:+ String "$"%char plain).

Fixpoint after_salt (s : string) : option string :=
  match s with
  | EmptyString => None
  | String c s' =>
      if bool_decide (c = "s"%char) then after_salt s'
      else if bool_decide (c = "$"%char) then Some s'
      else None
  end.

Definition ideal_verify (digest plain : string) : bool :=
  match digest with
  | String c d =>
      bool_decide (c = "$"%char) &&
      match after_salt d with
      | Some p => bool_decide (p = plain)
      | None => false
      end
  | EmptyString => false
  end.

Definition role_string (r : Role) : string :=
  match r with STANDARD => "STANDARD" | ADMIN => "ADMIN" end.

(** The token is a function of the claims, the issue time in seconds,
    the lifetime and the key, and of nothing else; without a key the
    promise is rejected. *)
Definition hs256_signAsync (payload : JwtPayload) (options : SignOptions)
  (now : Z) : string + string :=
  match secret options with
  | None => inl "secretOrPrivateKey must have a value"
  | Some key =>
      inr ("sub=" +:+ pretty (sub payload) +:+
           ";role=" +:+ role_string (payload_role payload) +:+
           ";email=" +:+ payload_email payload +:+
           ";iat=" +:+ pretty now +:+
           ";expiresIn=" +:+ expiresIn options +:+
           ";key=" +:+ key)
  end.

Definition configured (key : string) : option string :=
  if bool_decide (key = "JWT_ACCESS_SECRET") then Some "access-secret"
  else if bool_decide (key = "JWT_REFRESH_SECRET") then Some "refresh-secret"
  else if bool_decide (key = "CLIENT_ORIGIN") then Some "http://localhost:3000"
  else None.

(** A configuration in which the signing secrets were left out. *)
Definition unconfigured (key : string) : option string :=
  if bool_decide (key = "CLIENT_ORIGIN") then Some "http://localhost:3000"
  else None.

Definition empty_world : World :=
  mkWorld [] 1 1700000000 0 [] [] 0 [].

(** Time passing between two requests. *)
Definition tick (seconds : Z) (w : World) : World :=
  set_now (now w + seconds) w.

(** ** A session to run the theorems on *)

Definition succeeded {A} (r : Result A) : bool :=
  match r with Ok _ => true | Throw _ => false end.

(** The refresh token in the payload of a login or a refresh. *)
Definition issued {A} (r : Result (A * Tokens)) : option string :=
  match r with
  | Ok out => Some (refresh_token out.2)
  | Throw _ => None
  end.

Definition ann_signup : SignupDto :=
  {| signup_email := "a@x.com";
     signup_password := "pw1";
     signup_name := "Ann" |}.

(** A second signup with her email, the other fields differing. *)
Definition bob_signup : SignupDto :=
  {| signup_email := "a@x.com";
     signup_password := "pw2";
     signup_name := "Bob" |}.

Definition ann_login : LoginDto :=
  {| login_email := "a@x.com"; login_password := "pw1" |}.

(** The row of Ann once she has signed up. *)
Definition ann : User :=
  mkUser 1 "a@x.com" "$$pw1" "Ann" STANDARD None 1700000000 1700000000.

(** The world after Ann signed up, and after she logged in in the same
    second. *)
Definition signed_up : World := (signup ideal_hash ann_signup empty_world).2.

Definition logged_in : World :=
  (login ideal_hash ideal_verify hs256_signAsync configured ann_login
         signed_up).2.

(** The refresh token that login handed to Ann, and the one that a
    refresh a second later hands to her. *)
Definition T1 : string :=
  "sub=1;role=STANDARD;email=a@x.com;iat=1700000000;expiresIn=7d"
  +:+ ";key=refresh-secret".

Definition T2 : string :=
  "sub=1;role=STANDARD;email=a@x.com;iat=1700000001;expiresIn=7d"
  +:+ ";key=refresh-secret".

(** A world in which the store cannot be reached. *)
Definition store_down : World :=
  mkWorld [ann] 2 1700000000 1
          [Some (OtherError "Can't reach database server")] [] 0 [].

(** A world in which the connection pool times out: the store rejects
    the coming call with the known request error P2024. *)
Definition pool_timeout : World :=
  mkWorld [ann] 2 1700000000 1
          [Some (KnownRequestError "P2024" eq_refl)] [] 0 [].

(** ** Vocabulary of the statements *)

(** The world after a store call was registered. *)
Definition logged (op : DbOp) (w : World) : World :=
  set_db (tail (db_faults w)) (op :: db_log w) w.

(** The failure of the coming store call, if it fails. *)
Definition faulty (w : World) : option Fault :=
  match head (db_faults w) with
  | Some (Some f) => Some f
  | _ => None
  end.

(** The table after [update]: every row with the key is written. *)
Definition written (i : Z) (data : User → User) (t : Z) (us : list User)
  : list User :=
  map (λ u, if has_id i u then touch t (data u) else u) us.

Definition access_denied : Exn := ForbiddenException (Text "Access Denied.").

(** The arguments of the two signing calls of [getTokens]. *)
Definition claims_of (userId : Z) (email : string) (role : Role)
  : JwtPayload :=
  {| sub := userId; payload_role := role; payload_email := email |}.

Definition access_options (config_get : string → option string)
  : SignOptions :=
  {| secret := config_get "JWT_ACCESS_SECRET"; expiresIn := "15m" |}.

Definition refresh_options (config_get : string → option string)
  : SignOptions :=
  {| secret := config_get "JWT_REFRESH_SECRET"; expiresIn := "7d" |}.

(** What [saveTokensInCookies] and [removeTokensInCookies] append to the
    response. *)
Definition delivered (tokens : Tokens) : list ResOp :=
  [Cookie "ACCESS_TOKEN" (access_token tokens) (Some 900000);
   Cookie "REFRESH_TOKEN" (refresh_token tokens) (Some 604800000)].

Definition expired : list ResOp :=
  [Cookie "ACCESS_TOKEN" "" (Some 0); Cookie "REFRESH_TOKEN" "" (Some 0)].

(** The where clause of [logout] and the table it leaves. *)
Definition has_session (userId : Z) (u : User) : bool :=
  has_id userId u && bool_decide (refreshToken u ≠ None).

Definition logged_out (userId : Z) (t : Z) (us : list User) : list User :=
  map (λ u, if has_session userId u
            then touch t (set_refreshToken None u) else u) us.

(** The user object that signup and login return. *)
Definition sanitized (user : User) : JsObject :=
  rest ["password"; "refreshToken"; "createdAt"; "updatedAt"]
       (obj_of_user user).

(** ** Vocabulary of the further properties *)

(** The handler of [login], as a function of the exception caught. *)
Definition login_catch (e : Exn) : Exn :=
  match e with
  | PrismaClientKnownRequestError code =>
      if bool_decide (code = "P2025")
      then UnauthorizedException (Text "Email or password incorrect.")
      else e
  | _ => e
  end.

(** The three steps that login, refresh and the federated callback
    share: issue the pair, store the fingerprint, set the cookies. *)
Definition open_session (hash : nat → string → string)
  (signAsync : JwtPayload → SignOptions → Z → string + string)
  (config_get : string → option string)
  (userId : Z) (email : string) (role : Role) : M Tokens :=
  tokens <- getTokens signAsync config_get userId email role ;;
  updateRtHash hash userId (refresh_token tokens) ;;;
  saveTokensInCookies tokens ;;;
  ret tokens.

(** The columns of a row that only signup sets. *)
Definition identity_of (u : User)
  : Z * string * string * string * Role * Z :=
  (id u, email u, password u, name u, role u, createdAt u).

(** The rows that do not have the id. *)
Definition others (userId : Z) (us : list User) : list User :=
  List.filter (λ u, negb (has_id userId u)) us.

(** The row that [create] inserts. *)
Definition new_row (hash : nat → string → string) (dto : SignupDto)
  (w : World) : User :=
  mkUser (next_id w) (signup_email dto)
         (hash (entropy w) (signup_password dto))
         (signup_name dto) STANDARD None (now w) (now w).

(** A table as the schema keeps it: emails and ids are unique and the
    sequence is ahead of every id. *)
Definition well_formed (w : World) : Prop :=
  NoDup (map email (users w)) ∧
  NoDup (map id (users w)) ∧
  Forall (λ u, id u < next_id w) (users w).

(** Every secret of the table is a digest: the passwords, and the
    fingerprints that are set. *)
Definition digests_only (hash : nat → string → string) (us : list User)
  : Prop :=
  Forall (λ u,
            (∃ salt plain, password u = hash salt plain) ∧
            (∀ digest, refreshToken u = Some digest →
                       ∃ salt plain, digest = hash salt plain)) us.

(** ** A second user, to run the further properties on *)

(** The access tokens that go with [T1] and [T2]. *)
Definition A1 : string :=
  "sub=1;role=STANDARD;email=a@x.com;iat=1700000000;expiresIn=15m"
  +:+ ";key=access-secret".

Definition A2 : string :=
  "sub=1;role=STANDARD;email=a@x.com;iat=1700000001;expiresIn=15m"
  +:+ ";key=access-secret".

(** The pair that a refresh two seconds after the login hands out. *)
Definition A3 : string :=
  "sub=1;role=STANDARD;email=a@x.com;iat=1700000002;expiresIn=15m"
  +:+ ";key=access-secret".

Definition T4 : string :=
  "sub=1;role=STANDARD;email=a@x.com;iat=1700000002;expiresIn=7d"
  +:+ ";key=refresh-secret".

(** The row of Ann while she is logged in. *)
Definition ann_logged_in : User :=
  mkUser 1 "a@x.com" "$$pw1" "Ann" STANDARD
         (Some (ideal_hash 1 T1)) 1700000000 1700000000.

Definition wrong_login : LoginDto :=
  {| login_email := "a@x.com"; login_password := "wrong" |}.

Definition cy_signup : SignupDto :=
  {| signup_email := "c@x.com";
     signup_password := "pw3";
     signup_name := "Cy" |}.

Definition cy_login : LoginDto :=
  {| login_email := "c@x.com"; login_password := "pw3" |}.

(** The refresh token that login hands to Cy. *)
Definition T3 : string :=
  "sub=2;role=STANDARD;email=c@x.com;iat=1700000000;expiresIn=7d"
  +:+ ";key=refresh-secret".

(** The row of Cy while he is logged in. *)
Definition cy_logged_in : User :=
  mkUser 2 "c@x.com" (ideal_hash 2 "pw3") "Cy" STANDARD
         (Some (ideal_hash 3 T3)) 1700000000 1700000000.

(** The world in which Ann and Cy are both logged in. *)
Definition two_sessions : World :=
  (login ideal_hash ideal_verify hs256_signAsync configured cy_login
         (signup ideal_hash cy_signup logged_in).2).2.

Definition ann_request : AuthUser :=
  {| auth_id := 1; auth_email := "a@x.com"; auth_role := STANDARD |}.

(** A federated identity that the table does not have. *)
Definition stranger_request : AuthUser :=
  {| auth_id := 7; auth_email := "s@x.com"; auth_role := STANDARD |}.

(** ** The payment service

    [PaymentService] talks to the payment gateway with [fetch] and to
    the book and order tables through Prisma.  The gateway, the
    configuration, the [preferences] constant, [parseInt] and the
    constraints of the schema on an order are parameters; the stock of
    the books and the orders are explicit state. *)

(** The values of JSON; the numbers are integers. *)
#[warnings="-register-all"]
Inductive Json :=
| JNull
| JBool (b : bool)
| JNum (z : Z)
| JStr (s : string)
| JArr (l : list Json)
| JObj (o : gmap string Json).

(** [j.k], for a value that is not null: a value that is not an object
    has no such property. *)
Definition property (k : string) (j : Json) : option Json :=
  match j with
  | JObj o => o !! k
  | _ => None
  end.

(** [{ ...v }]: the own properties of an object, the elements of an
    array or the characters of a string under their indices, and
    nothing for null, undefined, a boolean or a number. *)
Definition indexed (l : list Json) : gmap string Json :=
  list_to_map (imap (λ i v, (pretty i, v)) l).

Definition characters (s : string) : list Json :=
  map (λ c, JStr (String c EmptyString)) (list_ascii_of_string s).

Definition spread (v : option Json) : gmap string Json :=
  match v with
  | Some (JObj o) => o
  | Some (JArr l) => indexed l
  | Some (JStr s) => indexed (characters s)
  | _ => ∅
  end.

(** A template literal renders a missing configuration entry as the
    word undefined. *)
Definition template (v : option string) : string :=
  match v with Some s => s | None => "undefined" end.

(** The request that [fetch] is given; the body is the value that is
    serialised. *)
Record Request := {
  url : string;
  method : option string;
  authorization : string;
  body : option Json
}.

(** What [fetch] followed by [response.json()] comes to: a rejected
    promise of either, or the parsed body. *)
Inductive Fetched :=
| Rejected
| Parsed (j : Json).

Inductive PaymentExn := InternalServerErrorException (m : string).

Inductive Outcome (A : Type) :=
| Done (a : A)
| Failed (e : PaymentExn).
Arguments Done {A} a.
Arguments Failed {A} e.

(** The payment that the gateway answers with, as
    [createOrderAfterPayment] reads it: the id of an item is used as
    the id of a book, its quantity as a number. *)
Record Item := { item_id : Z; unit_price : string; item_quantity : Z }.

Record ShippingAddress := {
  shipping_address_address : string;
  shipping_address_locality : string;
  shipping_address_province : string;
  shipping_address_zip : string
}.

Record Payment := {
  items : list Item;
  transaction_amount : Z;
  metadata_uid : Z;
  metadata_shipping_address : ShippingAddress
}.

(** The answer to the request for a payment: a rejected promise, an
    answer without the items or the metadata that the code destructures
    (such as the error object of the gateway), on which a step of the
    try block throws, or a payment. *)
Inductive PaymentFetched :=
| PaymentRejected
| NotAPayment
| IsPayment (p : Payment).

(** The data of [order.create]; a price is not a number when
    [parseInt] finds no digits. *)
Record OrderItem := { bookId : Z; price : option Z; quantity : Z }.

Record Order := {
  totalPrice : Z;
  customerId : Z;
  orderItems : list OrderItem;
  address : string;
  locality : string;
  province : string;
  zip : string
}.

(** The stock of every book, and the orders. *)
Record Shop := { books : gmap Z Z; orders : list Order }.

(** [book.update({ where: { id }, data: { stock: { decrement } } })]:
    refused when no book has the id. *)
Definition book_update (i q : Z) (bs : gmap Z Z) : option (gmap Z Z) :=
  match bs !! i with
  | Some stock => Some (<[i := stock - q]> bs)
  | None => None
  end.

Fixpoint updateStock (its : list Item) (bs : gmap Z Z) : option (gmap Z Z) :=
  match its with
  | [] => Some bs
  | it :: its =>
      match book_update (item_id it) (item_quantity it) bs with
      | Some bs' => updateStock its bs'
      | None => None
      end
  end.

Section PaymentService.

Variable config_get : string → option string.

(** The [preferences] constant that is spread into the request. *)
Variable preferences : gmap string Json.

Variable fetch : Request → Fetched.
Variable fetch_payment : Request → PaymentFetched.
Variable parseInt : string → option Z.

(** Whether the transaction commits once the updates went through:
    the constraints of the schema on the order. *)
Variable accepts : Order → bool.

(** The object that [createPayment] serialises: the properties of the
    input, then those of [preferences], then [metadata]. *)
Definition preference_body (dto : gmap string Json) (uid : Z) : Json :=
  JObj (<["metadata" :=
            JObj (<["uid" := JNum uid]>
                  (<["shippingAddress" :=
                       JObj (spread (dto !! "shippingAddress"))]> ∅))]>
        (preferences ∪ dto)).

Definition createPayment (dto : gmap string Json) (uid : Z)
  : Outcome (option Json) :=
  match
    fetch
      {| url := template (config_get "MERCADOPAGO_API_BASE_URL")
                +:+ "/checkout/preferences";
         method := Some "POST";
         authorization :=
           "Bearer " +:+ template (config_get "MERCADOPAGO_ACCESS_TOKEN");
         body := Some (preference_body dto uid) |}
  with
  | Parsed JNull =>
      Failed (InternalServerErrorException "Internal Server Error")
  | Parsed j => let init_point := property "init_point" j in Done init_point
  | Rejected =>
      Failed (InternalServerErrorException "Internal Server Error")
  end.

(** [prisma.$transaction([...updateStock, createOrder])]: the updates
    in the order of the items, then the order; all of it or nothing. *)
Definition transaction (its : list Item) (order : Order) (shop : Shop)
  : option Shop :=
  match updateStock its (books shop) with
  | Some bs =>
      if accepts order
      then Some {| books := bs; orders := (orders shop ++ [order])%list |}
      else None
  | None => None
  end.

Definition itemsPayed (its : list Item) : list OrderItem :=
  map (λ it, {| bookId := item_id it;
                price := parseInt (unit_price it);
                quantity := item_quantity it |}) its.

Definition createOrder (p : Payment) : Order :=
  {| totalPrice := transaction_amount p;
     customerId := metadata_uid p;
     orderItems := itemsPayed (items p);
     address := shipping_address_address (metadata_shipping_address p);
     locality := shipping_address_locality (metadata_shipping_address p);
     province := shipping_address_province (metadata_shipping_address p);
     zip := shipping_address_zip (metadata_shipping_address p) |}.

Definition createOrderAfterPayment (paymentId : Z) (shop : Shop)
  : Outcome unit * Shop :=
  match
    fetch_payment
      {| url := template (config_get "MERCADOPAGO_API_BASE_URL")
                +:+ "/v1/payments/" +:+ pretty paymentId;
         method := None;
         authorization :=
           "Bearer " +:+ template (config_get "MERCADOPAGO_ACCESS_TOKEN");
         body := None |}
  with
  | IsPayment p =>
      match transaction (items p) (createOrder p) shop with
      | Some shop' => (Done tt, shop')
      | None =>
          (Failed (InternalServerErrorException "Internal Server Error"),
           shop)
      end
  | _ => (Failed (InternalServerErrorException "Internal Server Error"), shop)
  end.

End PaymentService.

(** The two requests of the service. *)
Definition preference_request (config_get : string → option string)
    (preferences dto : gmap string Json) (uid : Z) : Request :=
  {| url := template (config_get "MERCADOPAGO_API_BASE_URL")
            +:+ "/checkout/preferences";
     method := Some "POST";
     authorization :=
       "Bearer " +:+ template (config_get "MERCADOPAGO_ACCESS_TOKEN");
     body := Some (preference_body preferences dto uid) |}.

Definition payment_request (config_get : string → option string)
    (paymentId : Z) : Request :=
  {| url := template (config_get "MERCADOPAGO_API_BASE_URL")
            +:+ "/v1/payments/" +:+ pretty paymentId;
     method := None;
     authorization :=
       "Bearer " +:+ template (config_get "MERCADOPAGO_ACCESS_TOKEN");
     body := None |}.

(** The quantity of a book that a payment orders. *)
Definition ordered (b : Z) (its : list Item) : Z :=
  foldr (λ it n, if bool_decide (item_id it = b)
                 then item_quantity it + n else n) 0 its.

(** Every item of a payment names a book in stock. *)
Definition in_catalogue (bs : gmap Z Z) (its : list Item) : Prop :=
  Forall (λ it, is_Some (bs !! item_id it)) its.

(** A gateway, a catalogue and a payment to run the service on. *)
Definition mercadopago (k : string) : option string :=
  if bool_decide (k = "MERCADOPAGO_API_BASE_URL")
  then Some "https://api.mercadopago.com"
  else if bool_decide (k = "MERCADOPAGO_ACCESS_TOKEN")
  then Some "TEST-token"
  else None.

Definition digit (c : ascii) : option Z :=
  let n := Z.of_nat (nat_of_ascii c) in
  if ((48 <=? n) && (n <=? 57))%Z then Some (n - 48) else None.

Fixpoint digits (acc : option Z) (s : string) : option Z :=
  match s with
  | EmptyString => acc
  | String c s =>
      match digit c with
      | Some d => digits (Some (10 * default 0 acc + d)) s
      | None => acc
      end
  end.

Definition paid : Payment :=
  {| items := [ {| item_id := 1; unit_price := "100"; item_quantity := 2 |};
                {| item_id := 2; unit_price := "250"; item_quantity := 1 |};
                {| item_id := 1; unit_price := "100"; item_quantity := 1 |} ];
     transaction_amount := 550;
     metadata_uid := 1;
     metadata_shipping_address :=
       {| shipping_address_address := "Av. Corrientes 1234";
          shipping_address_locality := "CABA";
          shipping_address_province := "Buenos Aires";
          shipping_address_zip := "1043" |} |}.

Definition gateway (r : Request) : PaymentFetched :=
  if bool_decide (url r = "https://api.mercadopago.com/v1/payments/77")
  then IsPayment paid
  else NotAPayment.

Definition shelves : Shop :=
  {| books := {[ 1 := 5; 2 := 3 ]}; orders := [] |}.

Definition checkout_preferences : gmap string Json :=
  {[ "notification_url" := JStr "https://bookstore.example/payment/webhook";
     "auto_return" := JStr "approved" ]}.

Definition checkout (r : Request) : Fetched :=
  match body r with
  | Some (JObj o) =>
      match o !! "items" with
      | Some _ => Parsed (JObj {[ "init_point" := JStr "https://mpago.la/2x" ]})
      | None => Parsed (JObj {[ "message" := JStr "invalid items" ]})
      end
  | _ => Rejected
  end.

Definition cart : gmap string Json :=
  {[ "items" := JArr [JObj {[ "id" := JNum 1; "quantity" := JNum 2 ]}];
     "shippingAddress" := JObj {[ "zip" := JStr "1043" ]} ]}.

Definition forged_cart : gmap string Json :=
  <["metadata" := JObj {[ "uid" := JNum 99 ]}]>
    (<["notification_url" := JStr "https://elsewhere.example"]> cart).

(** ** Lists and objects *)

Lemma find_has_id i l u : find (has_id i) l = Some u → id u = i.
Proof.
  intros H. apply find_some in H as [_ H].
  unfold has_id in H. by apply bool_decide_eq_true in H.
Qed.

Lemma find_has_id_none i l u :
  find (has_id i) l = None → u ∈ l → has_id i u = false.
Proof.
  intros H Hu. apply (find_none _ _ H). by apply list_elem_of_In.
Qed.

(** A write that keeps the key does not move the row a lookup finds. *)
Lemma find_map_keep_id i (f : User → User) l :
  (∀ u, id (f u) = id u) →
  find (has_id i) (map f l) = f <$> find (has_id i) l.
Proof.
  intros Hf. induction l as [|u l IH]; [done|].
  simpl. unfold has_id at 1 3. rewrite Hf.
  destruct (bool_decide (id u = i)); [done | apply IH].
Qed.

Lemma map_unchanged (f : User → User) l :
  (∀ u, u ∈ l → f u = u) → map f l = l.
Proof.
  induction l as [|u l IH]; intros Hf; [done|].
  simpl. rewrite Hf by apply list_elem_of_here.
  f_equal. apply IH. intros v Hv. apply Hf. by apply list_elem_of_further.
Qed.

Lemma find_written i data t us :
  (∀ u, id (data u) = id u) →
  find (has_id i) (written i data t us)
  = (λ u, touch t (data u)) <$> find (has_id i) us.
Proof.
  intros Hdata. induction us as [|u us IH]; [done|].
  simpl. destruct (has_id i u) eqn:Hu.
  - unfold has_id in *. simpl. rewrite Hdata. by rewrite Hu.
  - by rewrite Hu.
Qed.

(** No row has a session of [userId] once [logout] has written the
    table, so a second [logout] writes nothing. *)
Lemma logged_out_no_session userId t us u :
  u ∈ logged_out userId t us → has_session userId u = false.
Proof.
  unfold logged_out. rewrite list_elem_of_fmap. intros (v & -> & _).
  destruct (has_session userId v) eqn:Hv; [|exact Hv].
  unfold has_session. simpl. apply andb_false_r.
Qed.

Lemma logged_out_idem userId t t' us :
  logged_out userId t' (logged_out userId t us) = logged_out userId t us.
Proof.
  unfold logged_out at 1. apply map_unchanged. intros u Hu.
  by rewrite (logged_out_no_session _ _ _ _ Hu).
Qed.

Lemma logged_out_absent userId t us :
  find (has_id userId) us = None → logged_out userId t us = us.
Proof.
  intros Hnone. apply map_unchanged. intros u Hu.
  unfold has_session. by rewrite (find_has_id_none _ _ _ Hnone Hu).
Qed.

(** The rest of a destructuring has none of the keys taken out. *)
Lemma rest_lookup_taken ks (o : JsObject) k :
  k ∈ ks → rest ks o !! k = None.
Proof.
  induction ks as [|k' ks IH]; [by intros ?%not_elem_of_nil|].
  intros Hk. simpl. destruct (decide (k' = k)) as [->|Hne].
  - apply lookup_delete_eq.
  - rewrite lookup_delete_ne by done. apply IH.
    apply elem_of_cons in Hk as [?|?]; [congruence | done].
Qed.

Lemma rest_lookup_kept ks (o : JsObject) k :
  k ∉ ks → rest ks o !! k = o !! k.
Proof.
  induction ks as [|k' ks IH]; [done|].
  intros Hk. apply not_elem_of_cons in Hk as [Hne Hk]. simpl.
  rewrite lookup_delete_ne by done. by apply IH.
Qed.

(** A selection has none of the columns that were not selected. *)
Lemma select_lookup_left_out ks (o : JsObject) k :
  k ∉ ks → select ks o !! k = None.
Proof.
  intros Hk. unfold select. apply map_lookup_filter_None. right.
  intros v _ Hin. simpl in Hin. by apply bool_decide_unpack in Hin.
Qed.

(** ** Equations of the store *)

Lemma db_call_run {A} op (body : M A) w :
  db_call op body w
  = match faulty w with
    | Some f => (Throw (rejection f), logged op w)
    | None => body (logged op w)
    end.
Proof. unfold db_call, faulty, logged. by repeat case_match. Qed.

Lemma faulty_up w : db_faults w = [] → faulty w = None.
Proof. unfold faulty. by intros ->. Qed.

(** A failure of the store's own is neither of the two answers that
    the handlers of [signup] and [login] look for. *)
Lemma rejection_other f code :
  rejection f = PrismaClientKnownRequestError code →
  row_decided code = false.
Proof. destruct f as [c other|m]; simpl; [by intros [= <-] | done]. Qed.

Lemma rejection_not_P2002 f :
  rejection f ≠ PrismaClientKnownRequestError "P2002".
Proof. by intros H%rejection_other. Qed.

Lemma rejection_not_P2025 f :
  rejection f ≠ PrismaClientKnownRequestError "P2025".
Proof. by intros H%rejection_other. Qed.

Lemma rejection_not_forbidden f : is_forbidden (rejection f) = false.
Proof. by destruct f. Qed.

(** A handler that looks for a code of the rows rethrows a failure of
    the store's own. *)
Ltac store_rejects f :=
  let Hother := fresh "Hother" in
  pose proof (rejection_other f) as Hother;
  destruct (rejection f); try reflexivity;
  rewrite bool_decide_eq_false_2;
  [reflexivity | intros ->; by specialize (Hother _ eq_refl)].

(** Whatever a handler makes of a failure, it is no result. *)
Ltac store_fails f :=
  cbv beta; destruct (rejection f); try case_bool_decide;
  unfold throw; cbv beta; by intros [=].

Lemma create_run e p n w :
  prisma_user_create e p n w
  = match faulty w with
    | Some f => (Throw (rejection f), logged (OpCreate e) w)
    | None =>
        if existsb (has_email e) (users w)
        then (Throw (PrismaClientKnownRequestError "P2002"),
              logged (OpCreate e) w)
        else
          let u := mkUser (next_id w) e p n STANDARD None (now w) (now w) in
          (Ok u,
           set_next_id (next_id w + 1)
             (set_users (λ us, (us ++ [u])%list) (logged (OpCreate e) w)))
    end.
Proof. unfold prisma_user_create. by rewrite db_call_run. Qed.

Lemma findFirstOrThrow_run e w :
  prisma_user_findFirstOrThrow e w
  = match faulty w with
    | Some f => (Throw (rejection f), logged (OpFindFirst e) w)
    | None =>
        match find (has_email e) (users w) with
        | Some u => (Ok u, logged (OpFindFirst e) w)
        | None => (Throw (PrismaClientKnownRequestError "P2025"),
                   logged (OpFindFirst e) w)
        end
    end.
Proof. unfold prisma_user_findFirstOrThrow. by rewrite db_call_run. Qed.

Lemma findUnique_run i w :
  prisma_user_findUnique i w
  = match faulty w with
    | Some f => (Throw (rejection f), logged (OpFindUnique i) w)
    | None => (Ok (find (has_id i) (users w)), logged (OpFindUnique i) w)
    end.
Proof. unfold prisma_user_findUnique. by rewrite db_call_run. Qed.

Lemma update_run i data w :
  prisma_user_update i data w
  = match faulty w with
    | Some f => (Throw (rejection f), logged (OpUpdate i) w)
    | None =>
        match find (has_id i) (users w) with
        | Some u => (Ok (touch (now w) (data u)),
                     set_users (written i data (now w)) (logged (OpUpdate i) w))
        | None => (Throw (PrismaClientKnownRequestError "P2025"),
                   logged (OpUpdate i) w)
        end
    end.
Proof. unfold prisma_user_update. by rewrite db_call_run. Qed.

Lemma updateMany_run where_ data w :
  prisma_user_updateMany where_ data w
  = match faulty w with
    | Some f => (Throw (rejection f), logged OpUpdateMany w)
    | None =>
        (Ok (length (List.filter where_ (users w))),
         set_users (map (λ u, if where_ u then touch (now w) (data u) else u))
                   (logged OpUpdateMany w))
    end.
Proof. unfold prisma_user_updateMany. by rewrite db_call_run. Qed.

(** ** Equations of the service *)

Section Equations.

Variable hash : nat → string → string.
Variable verify : string → string → bool.
Variable signAsync : JwtPayload → SignOptions → Z → string + string.
Variable config_get : string → option string.

Lemma getTokens_run userId email role w :
  getTokens signAsync config_get userId email role w
  = (match signAsync (claims_of userId email role)
                     (access_options config_get) (now w),
           signAsync (claims_of userId email role)
                     (refresh_options config_get) (now w)
     with
     | inr a, inr r => Ok {| access_token := a; refresh_token := r |}
     | inl reason, _ => Throw (Error reason)
     | _, inl reason => Throw (Error reason)
     end,
     set_jwt_calls (S (S (jwt_calls w))) w).
Proof.
  unfold getTokens, bind, jwt_signAsync, claims_of, access_options,
    refresh_options. simpl.
  repeat case_match; reflexivity.
Qed.

Lemma updateRtHash_run userId rt w :
  updateRtHash hash userId rt w
  = let w1 := logged (OpUpdate userId) (set_entropy (S (entropy w)) w) in
    match faulty w with
    | Some f => (Throw (rejection f), w1)
    | None =>
        match find (has_id userId) (users w) with
        | Some u =>
            (Ok tt,
             set_users
               (written userId
                  (set_refreshToken (Some (hash (entropy w) rt))) (now w))
               w1)
        | None => (Throw (PrismaClientKnownRequestError "P2025"), w1)
        end
    end.
Proof.
  unfold updateRtHash, bind, argon2_hash. rewrite update_run.
  change (faulty (set_entropy _ w)) with (faulty w). simpl.
  repeat case_match; simplify_eq; reflexivity.
Qed.

Lemma saveTokensInCookies_run tokens w :
  saveTokensInCookies tokens w
  = (Ok tt, set_res (res w ++ delivered tokens)%list w).
Proof.
  unfold saveTokensInCookies, bind, res_cookie, set_res, delivered. simpl.
  by rewrite <- app_assoc.
Qed.

Lemma removeTokensInCookies_run w :
  removeTokensInCookies w = (Ok tt, set_res (res w ++ expired)%list w).
Proof.
  unfold removeTokensInCookies, bind, res_cookie, set_res, expired. simpl.
  by rewrite <- app_assoc.
Qed.

Lemma signup_run dto w :
  signup hash dto w
  = let w0 := logged (OpCreate (signup_email dto))
                     (set_entropy (S (entropy w)) w) in
    match faulty w with
    | Some f => (Throw (rejection f), w0)
    | None =>
        if existsb (has_email (signup_email dto)) (users w)
        then (Throw (ConflictException (Lines ["Email is already in use"])),
              w0)
        else
          let user :=
            mkUser (next_id w) (signup_email dto)
                   (hash (entropy w) (signup_password dto))
                   (signup_name dto) STANDARD None (now w) (now w) in
          (Ok (sanitized user),
           set_next_id (next_id w + 1)
             (set_users (λ us, (us ++ [user])%list) w0))
    end.
Proof.
  unfold signup, signup_catch, bind at 1, argon2_hash, try_catch, bind.
  rewrite create_run.
  change (faulty (set_entropy _ w)) with (faulty w). simpl.
  destruct (faulty w) as [f|]; [by store_rejects f|].
  destruct (existsb _ _); reflexivity.
Qed.

Lemma login_unknown dto w :
  faulty w = None →
  find (has_email (login_email dto)) (users w) = None →
  login hash verify signAsync config_get dto w
  = (Throw (UnauthorizedException (Text "Email or password incorrect.")),
     logged (OpFindFirst (login_email dto)) w).
Proof.
  intros Hup Hfind. unfold login, try_catch, bind at 1.
  rewrite findFirstOrThrow_run, Hup, Hfind. reflexivity.
Qed.

Lemma login_mismatch dto w user :
  faulty w = None →
  find (has_email (login_email dto)) (users w) = Some user →
  verify (password user) (login_password dto) = false →
  login hash verify signAsync config_get dto w
  = (Throw (BadRequestException (Text "Email or password incorrect.")),
     logged (OpFindFirst (login_email dto)) w).
Proof.
  intros Hup Hfind Hv. unfold login, try_catch, bind at 1.
  rewrite findFirstOrThrow_run, Hup, Hfind, Hv. reflexivity.
Qed.

(** What a successful login found and returned. *)
Lemma login_ok_inv dto w out w' :
  login hash verify signAsync config_get dto w = (Ok out, w') →
  ∃ user,
    find (has_email (login_email dto)) (users w) = Some user ∧
    verify (password user) (login_password dto) = true ∧
    out.1 = sanitized user.
Proof.
  unfold login, try_catch, bind at 1. rewrite findFirstOrThrow_run.
  destruct (faulty w) as [f|]; [store_fails f|].
  destruct (find _ _) as [user|]; [|intros [=]].
  destruct (verify _ _) eqn:Hv; [|intros [=]]. simpl.
  unfold bind at 1. rewrite getTokens_run.
  destruct (signAsync _ (access_options _) _); [intros [=]|].
  destruct (signAsync _ (refresh_options _) _); [intros [=]|].
  unfold bind at 1. rewrite updateRtHash_run. simpl.
  destruct (faulty (set_jwt_calls _ _)) as [f|]; simpl; [store_fails f|].
  destruct (find (has_id (id user)) (users w)); [|intros [=]].
  unfold bind. rewrite saveTokensInCookies_run. intros [= <- <-]. eauto.
Qed.

Lemma logout_run userId w :
  logout userId w
  = match faulty w with
    | Some f => (Throw (rejection f), logged OpUpdateMany w)
    | None =>
        (Ok true,
         set_res (res w ++ expired)%list
           (set_users (logged_out userId (now w)) (logged OpUpdateMany w)))
    end.
Proof.
  unfold logout, try_catch, bind at 1. rewrite updateMany_run.
  destruct (faulty w); [reflexivity|].
  unfold bind. by rewrite removeTokensInCookies_run.
Qed.

(** What a successful refresh found, minted, stored and delivered. *)
Lemma refreshTokens_ok_inv userId rt w out w' :
  refreshTokens hash verify signAsync config_get userId rt w = (Ok out, w') →
  ∃ user digest,
    faulty w = None ∧
    find (has_id userId) (users w) = Some user ∧
    refreshToken user = Some digest ∧
    digest ≠ "" ∧
    verify digest rt = true ∧
    signAsync (claims_of userId (email user) (role user))
              (access_options config_get) (now w)
    = inr (access_token out.2) ∧
    signAsync (claims_of userId (email user) (role user))
              (refresh_options config_get) (now w)
    = inr (refresh_token out.2) ∧
    out.1 = rest ["refreshToken"]
              (select ["id"; "name"; "email"; "role"; "refreshToken"]
                      (obj_of_user user)) ∧
    users w'
    = written userId
        (set_refreshToken (Some (hash (entropy w) (refresh_token out.2))))
        (now w) (users w) ∧
    res w' = (res w ++ delivered out.2)%list.
Proof.
  unfold refreshTokens, bind at 1. rewrite findUnique_run.
  destruct (faulty w) as [reason|] eqn:Hup; [intros [=]|].
  destruct (find (has_id userId) (users w)) as [user|] eqn:Hfind;
    [|intros [=]].
  destruct (refreshToken user) as [digest|] eqn:Hrt; [|intros [=]].
  unfold truthy_string; case_bool_decide as Hne; [intros [=]|]; simpl.
  destruct (verify digest rt) eqn:Hv; [|intros [=]]; simpl.
  unfold bind at 1; rewrite getTokens_run.
  pose proof (find_has_id _ _ _ Hfind) as Hid; rewrite Hid.
  destruct (signAsync _ (access_options _) _) as [?|a] eqn:Ha;
    [intros [=]|].
  destruct (signAsync _ (refresh_options _) _) as [?|r] eqn:Hr;
    [intros [=]|].
  unfold bind at 1. rewrite updateRtHash_run. simpl.
  destruct (faulty (set_jwt_calls _ _)); simpl; [intros [=]|].
  rewrite Hfind.
  unfold bind. rewrite saveTokensInCookies_run. intros [= <- <-].
  exists user, digest. by repeat split.
Qed.

(** A refresh is denied before anything is minted or written. *)
Lemma refreshTokens_forbidden_inv userId rt w m w' :
  refreshTokens hash verify signAsync config_get userId rt w
  = (Throw (ForbiddenException m), w') →
  m = Text "Access Denied." ∧
  faulty w = None ∧
  w' = logged (OpFindUnique userId) w ∧
  (find (has_id userId) (users w) = None ∨
   ∃ user, find (has_id userId) (users w) = Some user ∧
     (refreshToken user = None ∨
      ∃ digest, refreshToken user = Some digest ∧
        (digest = "" ∨ verify digest rt = false))).
Proof.
  unfold refreshTokens, bind at 1. rewrite findUnique_run.
  destruct (faulty w) as [f|] eqn:Hup; [intros [= Hf _]; by destruct f|].
  destruct (find (has_id userId) (users w)) as [user|] eqn:Hfind;
    [|intros [= <- <-]; by auto].
  destruct (refreshToken user) as [digest|] eqn:Hrt;
    [|intros [= <- <-]; repeat split; by eauto 10].
  unfold truthy_string; case_bool_decide as Hne;
    [intros [= <- <-]; repeat split; by eauto 10|]; simpl.
  destruct (verify digest rt) eqn:Hv;
    [|intros [= <- <-]; repeat split; by eauto 10]; simpl.
  unfold bind at 1; rewrite getTokens_run.
  destruct (signAsync _ (access_options _) _); [intros [=]|].
  destruct (signAsync _ (refresh_options _) _); [intros [=]|].
  unfold bind at 1. rewrite updateRtHash_run. simpl.
  destruct (faulty (set_jwt_calls _ _)) as [f|]; simpl;
    [intros [= Hf _]; by destruct f|].
  destruct (find (has_id (id user)) (users w)); [|intros [=]].
  unfold bind. rewrite saveTokensInCookies_run. intros [=].
Qed.

Lemma refreshTokens_denied userId rt w :
  faulty w = None →
  (find (has_id userId) (users w) = None ∨
   ∃ user, find (has_id userId) (users w) = Some user ∧
     (refreshToken user = None ∨
      ∃ digest, refreshToken user = Some digest ∧
        (digest = "" ∨ verify digest rt = false))) →
  refreshTokens hash verify signAsync config_get userId rt w
  = (Throw access_denied, logged (OpFindUnique userId) w).
Proof.
  intros Hup Hwhy.
  unfold refreshTokens, bind at 1. rewrite findUnique_run, Hup.
  destruct Hwhy as [->|(user & -> & [->|(digest & -> & [->|Hv])])];
    try reflexivity.
  unfold truthy_string. case_bool_decide; [reflexivity|]. simpl.
  by rewrite Hv.
Qed.

(** The callback is issuance, then the fingerprint, then the cookies;
    the first of them to throw ends it. *)
Lemma googleAuthCallback_run req w :
  googleAuthCallback hash signAsync config_get req w
  = match getTokens signAsync config_get (auth_id req) (auth_email req)
                    (auth_role req) w with
    | (Ok tokens, w1) =>
        match updateRtHash hash (auth_id req) (refresh_token tokens) w1 with
        | (Ok _, w2) =>
            (Ok tt,
             set_res (res w2 ++ Cookie "test" "hola" None
                                  :: delivered tokens)%list w2)
        | (Throw e, w2) => (Throw e, w2)
        end
    | (Throw e, w1) => (Throw e, w1)
    end.
Proof.
  unfold googleAuthCallback, bind at 1.
  destruct (getTokens _ _ _ _ _ _) as [[tokens|e] w1]; [|reflexivity].
  simpl. unfold bind at 1.
  destruct (updateRtHash _ _ _ _) as [[[]|e] w2]; [|reflexivity].
  unfold bind, res_cookie. rewrite saveTokensInCookies_run. simpl.
  unfold set_res. simpl. by rewrite <- app_assoc.
Qed.

(** Neither the fingerprint update nor issuance writes to the
    response. *)
Lemma getTokens_res userId email role w :
  res (getTokens signAsync config_get userId email role w).2 = res w.
Proof. by rewrite getTokens_run. Qed.

Lemma updateRtHash_res userId rt w :
  res (updateRtHash hash userId rt w).2 = res w.
Proof. rewrite updateRtHash_run. simpl. by repeat case_match. Qed.

End Equations.

(** ** The reference hasher meets the contract of a digest *)

Lemma after_salt_hash salt plain :
  after_salt (salt_string salt +:+ String "$"%char plain) = Some plain.
Proof. induction salt as [|salt IH]; [reflexivity | exact IH]. Qed.

Lemma ideal_verify_hash salt plain candidate :
  ideal_verify (ideal_hash salt plain) candidate = true ↔ plain = candidate.
Proof.
  unfold ideal_verify, ideal_hash. rewrite after_salt_hash. simpl.
  apply bool_decide_eq_true.
Qed.

Lemma ideal_verify_empty candidate : ideal_verify "" candidate = false.
Proof. reflexivity. Qed.

Lemma taken_existsb e us :
  existsb (has_email e) us = true ↔ ∃ user, user ∈ us ∧ email user = e.
Proof.
  rewrite existsb_exists. unfold has_email.
  split; intros (user & Hin & He); exists user.
  - apply list_elem_of_In in Hin. by apply bool_decide_eq_true in He.
  - split; [by apply list_elem_of_In | by apply bool_decide_eq_true].
Qed.

(** ** The scenarios of the specification *)

(** Ann signs up; Bob then signs up with her email. *)
Example scenario_signup_conflict :
  (signup ideal_hash ann_signup empty_world).1 = Ok (sanitized ann) ∧
  (signup ideal_hash bob_signup signed_up).1
  = Throw (ConflictException (Lines ["Email is already in use"])).
Proof. split; vm_compute; reflexivity. Qed.

(** Login hands out T1; a refresh a second later hands out T2; from then
    on T1 is refused and T2 accepted. *)
Example scenario_rotation :
  let login := login ideal_hash ideal_verify hs256_signAsync configured in
  let refresh :=
    refreshTokens ideal_hash ideal_verify hs256_signAsync configured in
  let first := refresh 1 T1 (tick 1 logged_in) in
  issued (login ann_login signed_up).1 = Some T1 ∧
  issued first.1 = Some T2 ∧
  (refresh 1 T1 first.2).1 = Throw access_denied ∧
  succeeded (refresh 1 T2 first.2).1 = true.
Proof. repeat split; vm_compute; reflexivity. Qed.

(** Ann logs out; the token she held is refused. *)
Example scenario_logout_then_refresh :
  let after := (logout 1 logged_in).2 in
  (logout 1 logged_in).1 = Ok true ∧
  refreshToken <$> find (has_id 1) (users after) = Some None ∧
  (refreshTokens ideal_hash ideal_verify hs256_signAsync configured
                 1 T1 after).1 = Throw access_denied.
Proof. repeat split; vm_compute; reflexivity. Qed.

(** ** Theorems *)

Section Properties.

Variable hash : nat → string → string.
Variable verify : string → string → bool.
Variable signAsync : JwtPayload → SignOptions → Z → string + string.
Variable config_get : string → option string.

(** C1, as the service has it.  After a successful refresh the stored
    fingerprint is the digest of the refresh token just issued, so
    that, under a hasher whose digests verify their plaintext and
    nothing else, it matches that token only; and presenting the
    previous token once more is denied with Forbidden whenever the
    token just issued differs from it. *)
Theorem refresh_rotates_fingerprint userId rt w out w1 :
  (∀ salt plain candidate,
     verify (hash salt plain) candidate = true ↔ plain = candidate) →
  refreshTokens hash verify signAsync config_get userId rt w = (Ok out, w1) →
  (∃ user digest,
     find (has_id userId) (users w1) = Some user ∧
     refreshToken user = Some digest ∧
     ∀ candidate,
       verify digest candidate = true ↔ candidate = refresh_token out.2) ∧
  (rt ≠ refresh_token out.2 →
   ∀ w2, users w2 = users w1 → faulty w2 = None →
     (refreshTokens hash verify signAsync config_get userId rt w2).1
     = Throw access_denied).
Proof.
  intros Hideal Hrun.
  apply refreshTokens_ok_inv in Hrun
    as (user & digest & _ & Hfind & _ & _ & _ & _ & _ & _ & Husers & _).
  assert (Hnew : find (has_id userId) (users w1)
                 = Some (touch (now w)
                           (set_refreshToken
                              (Some (hash (entropy w) (refresh_token out.2)))
                              user))).
  { rewrite Husers, find_written by done. by rewrite Hfind. }
  split.
  - eexists _, _. split; [exact Hnew|]. split; [reflexivity|].
    intros candidate. rewrite Hideal. split; congruence.
  - intros Hfresh w2 Hsame Hup. rewrite refreshTokens_denied; [done..|].
    right. eexists. rewrite Hsame. split; [exact Hnew|].
    right. eexists. split; [reflexivity|]. right.
    destruct (verify _ rt) eqn:Hv; [|reflexivity].
    apply Hideal in Hv. congruence.
Qed.

(** C2, on the code.  With a reachable store, a login with an email
    that no row has fails with Unauthorized, and a login with the
    email of a row whose password digest does not verify fails with
    BadRequest: the message is the same, the exception is not. *)
Theorem login_failures_differ dto w :
  faulty w = None →
  (find (has_email (login_email dto)) (users w) = None →
   (login hash verify signAsync config_get dto w).1
   = Throw (UnauthorizedException (Text "Email or password incorrect."))) ∧
  (∀ user,
     find (has_email (login_email dto)) (users w) = Some user →
     verify (password user) (login_password dto) = false →
     (login hash verify signAsync config_get dto w).1
     = Throw (BadRequestException (Text "Email or password incorrect."))).
Proof.
  intros Hup. split.
  - intros Hnone. by rewrite login_unknown.
  - intros user Hfind Hv. by rewrite (login_mismatch _ _ _ _ _ _ user).
Qed.

(** C3. On a reachable store, with a hasher under which nothing
    verifies against the empty digest, refresh fails with Forbidden
    exactly when no user has the id, or the user's stored fingerprint
    is null, or the presented token does not verify against it.  In
    particular a refresh that follows a logout of the same user is
    denied, whatever token is presented. *)
Theorem refresh_forbidden_iff userId rt w :
  (∀ candidate, verify "" candidate = false) →
  faulty w = None →
  ((refreshTokens hash verify signAsync config_get userId rt w).1
   = Throw access_denied ↔
   find (has_id userId) (users w) = None ∨
   (∃ user, find (has_id userId) (users w) = Some user ∧
            refreshToken user = None) ∨
   (∃ user digest, find (has_id userId) (users w) = Some user ∧
                   refreshToken user = Some digest ∧
                   verify digest rt = false)) ∧
  (faulty (logout userId w).2 = None →
   (refreshTokens hash verify signAsync config_get userId rt
                  (logout userId w).2).1
   = Throw access_denied).
Proof.
  intros Hempty Hup. split; [split|].
  - destruct (refreshTokens hash verify signAsync config_get userId rt w)
      as [r w'] eqn:Hrun.
    simpl. intros ->.
    apply refreshTokens_forbidden_inv in Hrun as (_ & _ & _ & Hwhy).
    destruct Hwhy as [?|(user & ? & [?|(digest & ? & [->|?])])]; eauto 10.
  - intros Hwhy. rewrite refreshTokens_denied; [done..|].
    destruct Hwhy as [?|[(user & ? & ?)|(user & digest & ? & ? & ?)]];
      eauto 10.
  - intros Hup'. rewrite refreshTokens_denied; [done..|].
    rewrite logout_run, Hup. simpl. unfold logged_out.
    rewrite find_map_keep_id by (intros u; by destruct (has_session _ _)).
    destruct (find (has_id userId) (users w)) as [user|] eqn:Hfind;
      [right|by left].
    simpl. eexists. split; [reflexivity|]. left.
    unfold has_session. rewrite (proj2 (find_some _ _ Hfind)). simpl.
    case_bool_decide as Hrt; [reflexivity|].
    destruct (refreshToken user); [by destruct Hrt | reflexivity].
Qed.

(** C4, on the code.  When token issuance throws, the federated
    callback throws the same exception in the same world and writes
    nothing to the response; and in no world does the callback add a
    redirect to the response. *)
Theorem googleAuthCallback_propagates_failure req w :
  let issue :=
    getTokens signAsync config_get (auth_id req) (auth_email req)
              (auth_role req) w in
  let run := googleAuthCallback hash signAsync config_get req w in
  (∀ e, issue.1 = Throw e →
        run = (Throw e, issue.2) ∧ res run.2 = res w) ∧
  (∀ url, Redirect url ∈ res run.2 → Redirect url ∈ res w).
Proof.
  intros issue run. unfold run. rewrite googleAuthCallback_run.
  pose proof (getTokens_res signAsync config_get (auth_id req)
                (auth_email req) (auth_role req) w) as Hres.
  fold issue in Hres |- *. destruct issue as [[tokens|e] w1]; simpl in *.
  - split; [intros e [=]|]. intros url.
    pose proof (updateRtHash_res hash (auth_id req) (refresh_token tokens) w1)
      as Hres'.
    destruct (updateRtHash _ _ _ _) as [[[]|e] w2]; simpl in *;
      rewrite Hres', Hres; [|done].
    rewrite elem_of_app. intros [?|Hin]; [done|].
    unfold delivered in Hin.
    repeat (apply elem_of_cons in Hin as [[=]|Hin]).
    by apply not_elem_of_nil in Hin.
  - split; [intros ? [= <-]; by split | by rewrite Hres].
Qed.

(** What the catch block of [signup] rethrows. *)
Lemma signup_catch_rethrows e w :
  e ≠ PrismaClientKnownRequestError "P2002" →
  signup_catch e w = (Throw e, w).
Proof.
  intros He. destruct e; try reflexivity. simpl.
  rewrite bool_decide_eq_false_2; [reflexivity | congruence].
Qed.

(** C5. Signup makes one store call, the insert.  On a reachable store,
    whenever some row already has the email, the insert is refused with
    the uniqueness violation P2002 and signup fails with Conflict,
    whatever the password and the name, the table being left as it
    was; signup fails with Conflict in no other case; and when the store
    rejects the insert for a reason of its own, signup throws that
    very error and leaves the table as it was: a known request error
    of another code stays that known request error, an error of
    another class stays that error.  The catch block maps nothing else
    to Conflict: whatever it is given, other than the known request
    error P2002, it throws again as it is. *)
Theorem signup_conflict_on_insert dto w :
  let run := signup hash dto w in
  let taken := ∃ user, user ∈ users w ∧ email user = signup_email dto in
  db_log run.2 = OpCreate (signup_email dto) :: db_log w ∧
  (faulty w = None → taken →
   (∀ digest,
      (prisma_user_create (signup_email dto) digest (signup_name dto) w).1
      = Throw (PrismaClientKnownRequestError "P2002")) ∧
   run.1 = Throw (ConflictException (Lines ["Email is already in use"])) ∧
   users run.2 = users w) ∧
  (∀ m, run.1 = Throw (ConflictException m) → faulty w = None ∧ taken) ∧
  (∀ f, faulty w = Some f →
   (∀ digest,
      (prisma_user_create (signup_email dto) digest (signup_name dto) w).1
      = Throw (rejection f)) ∧
   run.1 = Throw (rejection f) ∧ users run.2 = users w) ∧
  (∀ code other, faulty w = Some (KnownRequestError code other) →
   code ≠ "P2002" ∧
   run.1 = Throw (PrismaClientKnownRequestError code) ∧
   users run.2 = users w) ∧
  (∀ reason, faulty w = Some (OtherError reason) →
   run.1 = Throw (Error reason) ∧ users run.2 = users w) ∧
  (∀ e w0,
     e ≠ PrismaClientKnownRequestError "P2002" →
     signup_catch e w0 = (Throw e, w0)).
Proof.
  intros run taken.
  pose proof signup_catch_rethrows as Hcatch.
  unfold run. rewrite signup_run. simpl.
  destruct (faulty w) as [f|] eqn:Hup.
  - split; [done|]. split; [intros [=]|]. split.
    { intros m [= Hm]. by destruct f. }
    split; [|split; [|split; [|exact Hcatch]]].
    + intros ? [= <-]. split; [|done].
      intros digest. by rewrite create_run, Hup.
    + intros code other [= ->]. split; [|done].
      intros ->. by vm_compute in other.
    + by intros reason [= ->].
  - destruct (existsb _ _) eqn:Htaken; simpl.
    + split; [done|]. split; [|split].
      * intros _ _. split; [|done].
        intros digest. by rewrite create_run, Hup, Htaken.
      * intros m _. split; [done | by apply taken_existsb].
      * split; [done|]. split; [done|]. split; [done | exact Hcatch].
    + split; [done|]. split; [|split; [intros m [=]|]].
      * intros _ Hin%taken_existsb. congruence.
      * split; [done|]. split; [done|]. split; [done | exact Hcatch].
Qed.

(** C6. On a reachable store logout reports success and expires both
    cookies; it writes the rows that have the id and a fingerprint,
    and those only, so that afterwards no row with the id has one.  A
    second logout reports success again, leaves the table as the
    first left it, and expires the cookies again. *)
Theorem logout_idempotent userId w :
  db_faults w = [] →
  let first := logout userId w in
  let second := logout userId first.2 in
  first.1 = Ok true ∧
  second.1 = Ok true ∧
  users first.2
  = map (λ u, if has_id userId u && bool_decide (refreshToken u ≠ None)
              then touch (now w) (set_refreshToken None u) else u)
        (users w) ∧
  (∀ user, user ∈ users w → refreshToken user = None →
           user ∈ users first.2) ∧
  (∀ user, user ∈ users first.2 → id user = userId →
           refreshToken user = None) ∧
  users second.2 = users first.2 ∧
  res first.2
  = (res w ++ [Cookie "ACCESS_TOKEN" "" (Some 0);
               Cookie "REFRESH_TOKEN" "" (Some 0)])%list ∧
  res second.2
  = (res first.2 ++ [Cookie "ACCESS_TOKEN" "" (Some 0);
                     Cookie "REFRESH_TOKEN" "" (Some 0)])%list.
Proof.
  intros Hup first second. unfold second, first.
  rewrite (logout_run userId w), (faulty_up w Hup). simpl.
  rewrite logout_run. unfold faulty. simpl. rewrite Hup. simpl.
  rewrite logged_out_idem.
  repeat split; try done.
  - intros user Hin Hnone. unfold logged_out.
    apply list_elem_of_fmap. exists user. split; [|done].
    unfold has_session. rewrite Hnone.
    by rewrite andb_false_r.
  - intros user Hin Hid.
    apply logged_out_no_session in Hin. unfold has_session, has_id in Hin.
    rewrite bool_decide_eq_true_2 in Hin by done. simpl in Hin.
    apply bool_decide_eq_false in Hin.
    destruct (refreshToken user); [by destruct Hin | done].
Qed.

(** C7. The user object in the payload of a successful signup, login
    or refresh has no [password] and no [refreshToken] field. *)
Theorem payloads_are_sanitized w :
  (∀ dto user w',
     signup hash dto w = (Ok user, w') →
     user !! "password" = None ∧ user !! "refreshToken" = None) ∧
  (∀ dto out w',
     login hash verify signAsync config_get dto w = (Ok out, w') →
     out.1 !! "password" = None ∧ out.1 !! "refreshToken" = None) ∧
  (∀ userId rt out w',
     refreshTokens hash verify signAsync config_get userId rt w
     = (Ok out, w') →
     out.1 !! "password" = None ∧ out.1 !! "refreshToken" = None).
Proof.
  assert (Hsanitized : ∀ user,
            sanitized user !! "password" = None ∧
            sanitized user !! "refreshToken" = None).
  { intros user. unfold sanitized.
    split; apply rest_lookup_taken; compute_done. }
  split; [|split].
  - intros dto user w'. rewrite signup_run. simpl.
    destruct (faulty w); [intros [=]|].
    destruct (existsb _ _); [intros [=]|].
    intros [= <- _]. apply Hsanitized.
  - intros dto out w' (user & _ & _ & ->)%login_ok_inv. apply Hsanitized.
  - intros userId rt out w' Hrun.
    apply refreshTokens_ok_inv in Hrun
      as (user & digest & _ & _ & _ & _ & _ & _ & _ & -> & _).
    split.
    + rewrite rest_lookup_kept by compute_done.
      apply select_lookup_left_out. compute_done.
    + apply rest_lookup_taken. compute_done.
Qed.

(** C8. Token issuance signs the same claims [{sub, role, email}]
    twice: with the access secret and a lifetime of 15 minutes, and
    with the refresh secret and a lifetime of 7 days, the two secrets
    being two entries of the configuration.  There is a pair exactly
    when both promises are fulfilled; when either is rejected the
    operation throws.  Nothing but the count of signing calls changes
    in the world: the table, the store log and the response are
    untouched. *)
Theorem getTokens_issues_pair userId email role w :
  let claims :=
    {| sub := userId; payload_role := role; payload_email := email |} in
  let access :=
    signAsync claims
      {| secret := config_get "JWT_ACCESS_SECRET"; expiresIn := "15m" |}
      (now w) in
  let refresh :=
    signAsync claims
      {| secret := config_get "JWT_REFRESH_SECRET"; expiresIn := "7d" |}
      (now w) in
  let run := getTokens signAsync config_get userId email role w in
  "JWT_ACCESS_SECRET" ≠ "JWT_REFRESH_SECRET" ∧
  (∀ tokens,
     run.1 = Ok tokens ↔
     access = inr (access_token tokens) ∧
     refresh = inr (refresh_token tokens)) ∧
  ((∃ reason, access = inl reason) ∨ (∃ reason, refresh = inl reason) →
   ∃ reason, run.1 = Throw (Error reason)) ∧
  run.2 = set_jwt_calls (S (S (jwt_calls w))) w ∧
  users run.2 = users w ∧
  db_log run.2 = db_log w ∧
  res run.2 = res w.
Proof.
  intros claims access refresh run.
  assert (Hrun : run = (match access, refresh with
                        | inr a, inr r =>
                            Ok {| access_token := a; refresh_token := r |}
                        | inl reason, _ => Throw (Error reason)
                        | _, inl reason => Throw (Error reason)
                        end, set_jwt_calls (S (S (jwt_calls w))) w))
    by apply getTokens_run.
  rewrite Hrun. simpl. split; [done|]. split; [|split; [|done]].
  - intros [a r]. simpl.
    destruct access, refresh; split; intros H; simplify_eq; try done;
      destruct H; simplify_eq; done.
  - intros [[reason ->]|[reason ->]]; [eauto|].
    destruct access; eauto.
Qed.

(** C9. Logout of an id that no row has reports success on a reachable
    store and leaves the table as it is; and whatever the id, the only
    exception logout throws is the store's own error when the store
    fails: never Forbidden, never the not-found error. *)
Theorem logout_unknown_user_succeeds userId w :
  (faulty w = None → find (has_id userId) (users w) = None →
   (logout userId w).1 = Ok true ∧ users (logout userId w).2 = users w) ∧
  (∀ e, (logout userId w).1 = Throw e →
        (∃ f, faulty w = Some f ∧ e = rejection f) ∧
        is_forbidden e = false ∧
        e ≠ PrismaClientKnownRequestError "P2025").
Proof.
  rewrite logout_run. split.
  - intros -> Hnone. simpl. by rewrite logged_out_absent.
  - intros e. destruct (faulty w) as [f|]; simpl; intros [= <-].
    split; [by eauto|]. split.
    + apply rejection_not_forbidden.
    + apply rejection_not_P2025.
Qed.

(** C10. A refresh that fails with Forbidden has done nothing but look
    the user up: the table is as it was, no token was signed, no salt
    was drawn, and nothing was written to the response. *)
Theorem refresh_forbidden_is_atomic userId rt w m :
  (refreshTokens hash verify signAsync config_get userId rt w).1
  = Throw (ForbiddenException m) →
  let w' := (refreshTokens hash verify signAsync config_get userId rt w).2 in
  users w' = users w ∧
  jwt_calls w' = jwt_calls w ∧
  entropy w' = entropy w ∧
  res w' = res w ∧
  db_log w' = OpFindUnique userId :: db_log w.
Proof.
  destruct (refreshTokens hash verify signAsync config_get userId rt w)
    as [r w'] eqn:Hrun.
  simpl. intros ->.
  apply refreshTokens_forbidden_inv in Hrun as (_ & _ & -> & _).
  done.
Qed.

End Properties.

(** ** The theorems at work on Ann's session *)

(** C1 as stated fails: Ann logs in and refreshes within the same
    second.  The signer is given the same claims, secret and time as at
    login, so the token it issues is the one she presented; the first
    token verifies against the new fingerprint, and presenting it a
    second time succeeds again instead of being denied. *)
Lemma refresh_reuse_within_a_second :
  let refresh :=
    refreshTokens ideal_hash ideal_verify hs256_signAsync configured in
  let session :=
    login ideal_hash ideal_verify hs256_signAsync configured ann_login
          signed_up in
  let first := refresh 1 T1 session.2 in
  let second := refresh 1 T1 first.2 in
  issued session.1 = Some T1 ∧
  issued first.1 = Some T1 ∧
  succeeded second.1 = true ∧
  second.1 ≠ Throw access_denied.
Proof.
  intros refresh session first second.
  split; [vm_compute; reflexivity|]. split; [vm_compute; reflexivity|].
  assert (Hok : succeeded second.1 = true) by (vm_compute; reflexivity).
  split; [exact Hok|]. intros Hdenied. rewrite Hdenied in Hok.
  discriminate Hok.
Qed.

(** The hypotheses of the amended C1 are met when Ann refreshes a second
    after she logged in: she is handed T2, the stored fingerprint
    verifies T2 only, and T1 is refused from then on. *)
Lemma refresh_rotates_fingerprint_witness :
  let refresh :=
    refreshTokens ideal_hash ideal_verify hs256_signAsync configured in
  let run := refresh 1 T1 (tick 1 logged_in) in
  (∀ salt plain candidate,
     ideal_verify (ideal_hash salt plain) candidate = true ↔
     plain = candidate) ∧
  issued run.1 = Some T2 ∧
  (∃ user digest,
     find (has_id 1) (users run.2) = Some user ∧
     refreshToken user = Some digest ∧
     ∀ candidate, ideal_verify digest candidate = true ↔ candidate = T2) ∧
  T1 ≠ T2 ∧
  faulty run.2 = None ∧
  (refresh 1 T1 run.2).1 = Throw access_denied.
Proof.
  intros refresh run.
  assert (Hissued : issued run.1 = Some T2) by (vm_compute; reflexivity).
  assert (Hup : faulty run.2 = None) by (vm_compute; reflexivity).
  assert (Hfresh : T1 ≠ T2) by (vm_compute; discriminate).
  split; [exact ideal_verify_hash|]. split; [exact Hissued|].
  destruct run as [[out|e] w1] eqn:Hrun; [|discriminate Hissued].
  injection Hissued as Hout.
  destruct (refresh_rotates_fingerprint ideal_hash ideal_verify
              hs256_signAsync configured 1 T1 (tick 1 logged_in) out w1
              ideal_verify_hash Hrun) as [Hstored Hdenied].
  rewrite Hout in Hstored, Hdenied.
  split; [exact Hstored|]. split; [exact Hfresh|]. split; [exact Hup|].
  exact (Hdenied Hfresh w1 eq_refl Hup).
Defined.

(** The hypotheses of C2 are met in the world where Ann has signed up:
    a wrong password for her email, and an email that nobody has. *)
Lemma login_failures_differ_witness :
  let wrong := {| login_email := "a@x.com"; login_password := "wrong" |} in
  let unknown := {| login_email := "b@x.com"; login_password := "wrong" |} in
  let login := login ideal_hash ideal_verify hs256_signAsync configured in
  faulty signed_up = None ∧
  find (has_email "b@x.com") (users signed_up) = None ∧
  find (has_email "a@x.com") (users signed_up) = Some ann ∧
  ideal_verify (password ann) "wrong" = false ∧
  (login unknown signed_up).1
  = Throw (UnauthorizedException (Text "Email or password incorrect.")) ∧
  (login wrong signed_up).1
  = Throw (BadRequestException (Text "Email or password incorrect.")).
Proof.
  intros wrong unknown login.
  assert (Hup : faulty signed_up = None) by (vm_compute; reflexivity).
  split; [exact Hup|].
  do 3 (split; [vm_compute; reflexivity|]). split.
  - apply (proj1 (login_failures_differ ideal_hash ideal_verify
                    hs256_signAsync configured unknown signed_up Hup)).
    vm_compute; reflexivity.
  - apply (proj2 (login_failures_differ ideal_hash ideal_verify
                    hs256_signAsync configured wrong signed_up Hup) ann);
      vm_compute; reflexivity.
Defined.

(** The hypotheses of C3 are met by the reference hasher and the world
    in which Ann is logged in: a stale token is refused because it does
    not verify, and after her logout T1 is refused as well. *)
Lemma refresh_forbidden_iff_witness :
  let refresh :=
    refreshTokens ideal_hash ideal_verify hs256_signAsync configured in
  (∀ candidate, ideal_verify "" candidate = false) ∧
  faulty logged_in = None ∧
  ((refresh 1 "stale" logged_in).1 = Throw access_denied ↔
   find (has_id 1) (users logged_in) = None ∨
   (∃ user, find (has_id 1) (users logged_in) = Some user ∧
            refreshToken user = None) ∨
   (∃ user digest, find (has_id 1) (users logged_in) = Some user ∧
                   refreshToken user = Some digest ∧
                   ideal_verify digest "stale" = false)) ∧
  faulty (logout 1 logged_in).2 = None ∧
  (refresh 1 T1 (logout 1 logged_in).2).1 = Throw access_denied.
Proof.
  intros refresh.
  assert (Hup : faulty logged_in = None) by (vm_compute; reflexivity).
  assert (Hup' : faulty (logout 1 logged_in).2 = None)
    by (vm_compute; reflexivity).
  split; [exact ideal_verify_empty|]. split; [exact Hup|].
  split; [|split; [exact Hup'|]].
  - apply (proj1 (refresh_forbidden_iff ideal_hash ideal_verify
                    hs256_signAsync configured 1 "stale" logged_in
                    ideal_verify_empty Hup)).
  - apply (proj2 (refresh_forbidden_iff ideal_hash ideal_verify
                    hs256_signAsync configured 1 T1 logged_in
                    ideal_verify_empty Hup) Hup').
Defined.

(** The hypothesis of C4 is met when the signing secrets are not
    configured: the signer rejects, and so does the callback. *)
Lemma googleAuthCallback_propagates_failure_witness :
  let req :=
    {| auth_id := 1; auth_email := "a@x.com"; auth_role := STANDARD |} in
  let issue :=
    getTokens hs256_signAsync unconfigured 1 "a@x.com" STANDARD signed_up in
  let run :=
    googleAuthCallback ideal_hash hs256_signAsync unconfigured req signed_up in
  issue.1 = Throw (Error "secretOrPrivateKey must have a value") ∧
  run = (Throw (Error "secretOrPrivateKey must have a value"), issue.2) ∧
  res run.2 = res signed_up.
Proof.
  intros req issue run. split; [vm_compute; reflexivity|].
  apply (proj1 (googleAuthCallback_propagates_failure ideal_hash
                  hs256_signAsync unconfigured req signed_up)).
  vm_compute; reflexivity.
Defined.

(** The hypotheses of C5 are met when Bob signs up with Ann's email,
    when the store cannot be reached, and when the connection pool
    times out: the known request error P2024 is not mapped to
    Conflict, although the email is taken. *)
Lemma signup_conflict_on_insert_witness :
  let bob := bob_signup in
  faulty signed_up = None ∧
  (∃ user, user ∈ users signed_up ∧ email user = "a@x.com") ∧
  (signup ideal_hash bob signed_up).1
  = Throw (ConflictException (Lines ["Email is already in use"])) ∧
  users (signup ideal_hash bob signed_up).2 = users signed_up ∧
  faulty store_down = Some (OtherError "Can't reach database server") ∧
  (signup ideal_hash bob store_down).1
  = Throw (Error "Can't reach database server") ∧
  faulty pool_timeout = Some (KnownRequestError "P2024" eq_refl) ∧
  (signup ideal_hash bob pool_timeout).1
  = Throw (PrismaClientKnownRequestError "P2024") ∧
  users (signup ideal_hash bob pool_timeout).2 = users pool_timeout.
Proof.
  intros bob.
  assert (Hup : faulty signed_up = None) by (vm_compute; reflexivity).
  assert (Htaken : ∃ user,
            user ∈ users signed_up ∧ email user = "a@x.com").
  { exists ann. split; [vm_compute; apply list_elem_of_here | reflexivity]. }
  assert (Hdown : faulty store_down
                  = Some (OtherError "Can't reach database server"))
    by (vm_compute; reflexivity).
  assert (Hpool : faulty pool_timeout
                  = Some (KnownRequestError "P2024" eq_refl))
    by reflexivity.
  split; [exact Hup|]. split; [exact Htaken|].
  split; [|split; [|split; [exact Hdown|split; [|split; [exact Hpool|]]]]].
  - apply (proj2 (proj1 (proj2 (signup_conflict_on_insert ideal_hash bob
                                  signed_up))
                    Hup Htaken)).
  - apply (proj2 (proj1 (proj2 (signup_conflict_on_insert ideal_hash bob
                                  signed_up))
                    Hup Htaken)).
  - apply (proj1 (proj2 (proj2 (proj2 (proj2 (proj2
             (signup_conflict_on_insert ideal_hash bob store_down))))))
             "Can't reach database server" Hdown).
  - apply (proj2 (proj1 (proj2 (proj2 (proj2 (proj2
             (signup_conflict_on_insert ideal_hash bob pool_timeout)))))
             "P2024" eq_refl Hpool)).
Defined.

(** The hypothesis of C6 is met in the world where Ann is logged in. *)
Lemma logout_idempotent_witness :
  let first := logout 1 logged_in in
  let second := logout 1 first.2 in
  db_faults logged_in = [] ∧
  first.1 = Ok true ∧
  second.1 = Ok true ∧
  users first.2
  = map (λ u, if has_id 1 u && bool_decide (refreshToken u ≠ None)
              then touch (now logged_in) (set_refreshToken None u) else u)
        (users logged_in) ∧
  (∀ user, user ∈ users logged_in → refreshToken user = None →
           user ∈ users first.2) ∧
  (∀ user, user ∈ users first.2 → id user = 1 →
           refreshToken user = None) ∧
  users second.2 = users first.2 ∧
  res first.2
  = (res logged_in ++ [Cookie "ACCESS_TOKEN" "" (Some 0);
                       Cookie "REFRESH_TOKEN" "" (Some 0)])%list ∧
  res second.2
  = (res first.2 ++ [Cookie "ACCESS_TOKEN" "" (Some 0);
                     Cookie "REFRESH_TOKEN" "" (Some 0)])%list.
Proof.
  intros first second.
  assert (Hup : db_faults logged_in = []) by (vm_compute; reflexivity).
  split; [exact Hup|].
  apply (logout_idempotent 1 logged_in Hup).
Defined.

(** The hypotheses of C7 are met by Ann's signup, her login, and a
    refresh a second later. *)
Lemma payloads_are_sanitized_witness :
  signup ideal_hash ann_signup empty_world = (Ok (sanitized ann), signed_up) ∧
  sanitized ann !! "password" = None ∧
  sanitized ann !! "refreshToken" = None ∧
  (∃ out w',
     login ideal_hash ideal_verify hs256_signAsync configured ann_login
           signed_up = (Ok out, w') ∧
     out.1 !! "password" = None ∧ out.1 !! "refreshToken" = None) ∧
  (∃ out w',
     refreshTokens ideal_hash ideal_verify hs256_signAsync configured 1 T1
                   (tick 1 logged_in) = (Ok out, w') ∧
     out.1 !! "password" = None ∧ out.1 !! "refreshToken" = None).
Proof.
  assert (Hsignup : signup ideal_hash ann_signup empty_world
                    = (Ok (sanitized ann), signed_up))
    by (vm_compute; reflexivity).
  split; [exact Hsignup|].
  split; [|split; [|split]].
  - apply (proj1 (payloads_are_sanitized ideal_hash ideal_verify
                    hs256_signAsync configured empty_world)
             ann_signup (sanitized ann) signed_up Hsignup).
  - apply (proj1 (payloads_are_sanitized ideal_hash ideal_verify
                    hs256_signAsync configured empty_world)
             ann_signup (sanitized ann) signed_up Hsignup).
  - assert (Hok : succeeded (login ideal_hash ideal_verify hs256_signAsync
                                     configured ann_login signed_up).1 = true)
      by (vm_compute; reflexivity).
    destruct (login ideal_hash ideal_verify hs256_signAsync configured
                    ann_login signed_up) as [[out|e] w'] eqn:Hrun;
      [|discriminate Hok].
    exists out, w'. split; [reflexivity|].
    apply (proj1 (proj2 (payloads_are_sanitized ideal_hash ideal_verify
                           hs256_signAsync configured signed_up))
             ann_login out w' Hrun).
  - assert (Hok : succeeded (refreshTokens ideal_hash ideal_verify
                                hs256_signAsync configured 1 T1
                                (tick 1 logged_in)).1 = true)
      by (vm_compute; reflexivity).
    destruct (refreshTokens ideal_hash ideal_verify hs256_signAsync configured
                            1 T1 (tick 1 logged_in)) as [[out|e] w'] eqn:Hrun;
      [|discriminate Hok].
    exists out, w'. split; [reflexivity|].
    apply (proj2 (proj2 (payloads_are_sanitized ideal_hash ideal_verify
                           hs256_signAsync configured (tick 1 logged_in)))
             1 T1 out w' Hrun).
Defined.

(** The hypotheses of C9 are met by a logout of an id that no row has,
    and by a logout while the store cannot be reached. *)
Lemma logout_unknown_user_succeeds_witness :
  faulty logged_in = None ∧
  find (has_id 7) (users logged_in) = None ∧
  (logout 7 logged_in).1 = Ok true ∧
  users (logout 7 logged_in).2 = users logged_in ∧
  (logout 1 store_down).1 = Throw (Error "Can't reach database server") ∧
  is_forbidden (Error "Can't reach database server") = false.
Proof.
  assert (Hup : faulty logged_in = None) by (vm_compute; reflexivity).
  assert (Hnone : find (has_id 7) (users logged_in) = None)
    by (vm_compute; reflexivity).
  assert (Hdown : (logout 1 store_down).1
                  = Throw (Error "Can't reach database server"))
    by (vm_compute; reflexivity).
  split; [exact Hup|]. split; [exact Hnone|].
  split; [|split; [|split; [exact Hdown|]]].
  - apply (proj1 (logout_unknown_user_succeeds 7 logged_in) Hup Hnone).
  - apply (proj1 (logout_unknown_user_succeeds 7 logged_in) Hup Hnone).
  - apply (proj2 (logout_unknown_user_succeeds 1 store_down)
             (Error "Can't reach database server") Hdown).
Defined.

(** The hypothesis of C10 is met by a refresh for an id that no row
    has. *)
Lemma refresh_forbidden_is_atomic_witness :
  let run :=
    refreshTokens ideal_hash ideal_verify hs256_signAsync configured
                  7 T1 logged_in in
  run.1 = Throw (ForbiddenException (Text "Access Denied.")) ∧
  users run.2 = users logged_in ∧
  jwt_calls run.2 = jwt_calls logged_in ∧
  entropy run.2 = entropy logged_in ∧
  res run.2 = res logged_in ∧
  db_log run.2 = OpFindUnique 7 :: db_log logged_in.
Proof.
  split; [vm_compute; reflexivity|].
  apply (refresh_forbidden_is_atomic ideal_hash ideal_verify hs256_signAsync
           configured 7 T1 logged_in (Text "Access Denied.")).
  vm_compute; reflexivity.
Defined.

(** ** Equations of whole operations *)

(** The object that refresh builds from the selected columns is the one
    that signup and login build from the whole row. *)
Lemma selected_is_sanitized user :
  rest ["refreshToken"]
       (select ["id"; "name"; "email"; "role"; "refreshToken"]
               (obj_of_user user))
  = sanitized user.
Proof. vm_compute. reflexivity. Qed.

Section Runs.

Variable hash : nat → string → string.
Variable verify : string → string → bool.
Variable signAsync : JwtPayload → SignOptions → Z → string + string.
Variable config_get : string → option string.

Lemma open_session_run userId email role w :
  open_session hash signAsync config_get userId email role w
  = match signAsync (claims_of userId email role)
                    (access_options config_get) (now w),
          signAsync (claims_of userId email role)
                    (refresh_options config_get) (now w)
    with
    | inr a, inr r =>
        let tokens := {| access_token := a; refresh_token := r |} in
        let w1 :=
          logged (OpUpdate userId)
            (set_entropy (S (entropy w))
               (set_jwt_calls (S (S (jwt_calls w))) w)) in
        match faulty w with
        | Some f => (Throw (rejection f), w1)
        | None =>
            match find (has_id userId) (users w) with
            | Some _ =>
                (Ok tokens,
                 set_res (res w ++ delivered tokens)%list
                   (set_users
                      (written userId
                         (set_refreshToken (Some (hash (entropy w) r)))
                         (now w))
                      w1))
            | None => (Throw (PrismaClientKnownRequestError "P2025"), w1)
            end
        end
    | inl reason, _ =>
        (Throw (Error reason), set_jwt_calls (S (S (jwt_calls w))) w)
    | _, inl reason =>
        (Throw (Error reason), set_jwt_calls (S (S (jwt_calls w))) w)
    end.
Proof.
  unfold open_session, bind at 1. rewrite getTokens_run.
  destruct (signAsync _ (access_options _) _) as [?|a]; [done|].
  destruct (signAsync _ (refresh_options _) _) as [?|r]; [done|].
  unfold bind at 1. rewrite updateRtHash_run. simpl.
  change (faulty (set_jwt_calls _ w)) with (faulty w).
  destruct (faulty w); [done|].
  destruct (find _ _); [|done].
  unfold bind. by rewrite saveTokensInCookies_run.
Qed.

Lemma login_run dto w :
  login hash verify signAsync config_get dto w
  = let w0 := logged (OpFindFirst (login_email dto)) w in
    match faulty w with
    | Some f => (Throw (rejection f), w0)
    | None =>
        match find (has_email (login_email dto)) (users w) with
        | None =>
            (Throw (UnauthorizedException
                      (Text "Email or password incorrect.")), w0)
        | Some user =>
            if verify (password user) (login_password dto)
            then
              match open_session hash signAsync config_get
                                 (id user) (email user) (role user) w0 with
              | (Ok tokens, w') => (Ok (sanitized user, tokens), w')
              | (Throw e, w') => (Throw (login_catch e), w')
              end
            else
              (Throw (BadRequestException
                        (Text "Email or password incorrect.")), w0)
        end
    end.
Proof.
  unfold login, try_catch, bind at 1. rewrite findFirstOrThrow_run.
  destruct (faulty w) as [f|]; [cbv beta zeta; by store_rejects f|].
  destruct (find _ _) as [user|]; [|done].
  destruct (verify _ _); [|done]. simpl.
  unfold open_session, bind.
  destruct (getTokens _ _ _ _ _ _) as [[tokens|e] w1]; simpl.
  - destruct (updateRtHash _ _ _ _) as [[[]|e] w2]; simpl.
    + reflexivity.
    + destruct e; try done. simpl. by destruct (bool_decide _).
  - destruct e; try done. simpl. by destruct (bool_decide _).
Qed.

Lemma refreshTokens_run userId rt w :
  refreshTokens hash verify signAsync config_get userId rt w
  = let w0 := logged (OpFindUnique userId) w in
    match faulty w with
    | Some f => (Throw (rejection f), w0)
    | None =>
        match find (has_id userId) (users w) with
        | None => (Throw access_denied, w0)
        | Some user =>
            match refreshToken user with
            | None => (Throw access_denied, w0)
            | Some digest =>
                if truthy_string digest && verify digest rt
                then
                  match open_session hash signAsync config_get
                                     userId (email user) (role user) w0 with
                  | (Ok tokens, w') => (Ok (sanitized user, tokens), w')
                  | (Throw e, w') => (Throw e, w')
                  end
                else (Throw access_denied, w0)
            end
        end
    end.
Proof.
  unfold refreshTokens, bind at 1. rewrite findUnique_run.
  destruct (faulty w); [done|].
  destruct (find _ _) as [user|] eqn:Hfind; [|done].
  destruct (refreshToken user) as [digest|]; [|done].
  destruct (truthy_string digest); [|done].
  destruct (verify digest rt); [|done]. simpl.
  rewrite (find_has_id _ _ _ Hfind).
  unfold open_session, bind.
  destruct (getTokens _ _ _ _ _ _) as [[tokens|e] w1]; [|done]. simpl.
  destruct (updateRtHash _ _ _ _) as [[[]|e] w2]; [|done]. simpl.
  unfold ret. by rewrite <- (selected_is_sanitized user).
Qed.

Lemma googleAuthCallback_unfold req w :
  googleAuthCallback hash signAsync config_get req w
  = match signAsync (claims_of (auth_id req) (auth_email req) (auth_role req))
                    (access_options config_get) (now w),
          signAsync (claims_of (auth_id req) (auth_email req) (auth_role req))
                    (refresh_options config_get) (now w)
    with
    | inr a, inr r =>
        let tokens := {| access_token := a; refresh_token := r |} in
        let w1 :=
          logged (OpUpdate (auth_id req))
            (set_entropy (S (entropy w))
               (set_jwt_calls (S (S (jwt_calls w))) w)) in
        match faulty w with
        | Some f => (Throw (rejection f), w1)
        | None =>
            match find (has_id (auth_id req)) (users w) with
            | Some _ =>
                (Ok tt,
                 set_res (res w ++ Cookie "test" "hola" None
                                :: delivered tokens)%list
                   (set_users
                      (written (auth_id req)
                         (set_refreshToken (Some (hash (entropy w) r)))
                         (now w))
                      w1))
            | None => (Throw (PrismaClientKnownRequestError "P2025"), w1)
            end
        end
    | inl reason, _ =>
        (Throw (Error reason), set_jwt_calls (S (S (jwt_calls w))) w)
    | _, inl reason =>
        (Throw (Error reason), set_jwt_calls (S (S (jwt_calls w))) w)
    end.
Proof.
  rewrite googleAuthCallback_run, getTokens_run.
  destruct (signAsync _ (access_options _) _) as [?|a]; [done|].
  destruct (signAsync _ (refresh_options _) _) as [?|r]; [done|].
  rewrite updateRtHash_run. simpl.
  change (faulty (set_jwt_calls _ w)) with (faulty w).
  destruct (faulty w); [done|].
  by destruct (find _ _).
Qed.

End Runs.

(** ** Tables after a write *)

Lemma find_has_id_elem u l : u ∈ l → is_Some (find (has_id (id u)) l).
Proof.
  intros Hu. destruct (find _ l) eqn:Hnone; [eauto|].
  pose proof (find_has_id_none _ _ _ Hnone Hu) as Hid.
  unfold has_id in Hid. by rewrite bool_decide_eq_true_2 in Hid.
Qed.

Lemma find_elem (p : User → bool) l u : find p l = Some u → u ∈ l.
Proof. intros H. apply list_elem_of_In. by apply (find_some _ _ H). Qed.

(** A write to the rows of one id leaves the row of another id where a
    lookup finds it. *)
Lemma find_map_other j (f : User → User) l :
  (∀ u, id (f u) = id u) →
  (∀ u, has_id j u = true → f u = u) →
  find (has_id j) (map f l) = find (has_id j) l.
Proof.
  intros Hid Hf. induction l as [|u l IH]; [done|].
  simpl. unfold has_id at 1. rewrite Hid. fold (has_id j u).
  destruct (has_id j u) eqn:Hu; [by rewrite Hf | done].
Qed.

Lemma find_written_other i j v t us :
  i ≠ j →
  find (has_id j) (written i (set_refreshToken v) t us) = find (has_id j) us.
Proof.
  intros Hne. apply find_map_other.
  - intros u. by destruct (has_id i u).
  - intros u Hu. unfold has_id in *.
    apply bool_decide_eq_true in Hu.
    rewrite bool_decide_eq_false_2; [done | congruence].
Qed.

Lemma find_logged_out_other i j t us :
  i ≠ j → find (has_id j) (logged_out i t us) = find (has_id j) us.
Proof.
  intros Hne. apply find_map_other.
  - intros u. by destruct (has_session i u).
  - intros u Hu. unfold has_session, has_id in *.
    apply bool_decide_eq_true in Hu.
    rewrite bool_decide_eq_false_2; [done | congruence].
Qed.

Lemma others_map i (f : User → User) l :
  (∀ u, id (f u) = id u) →
  (∀ u, has_id i u = false → f u = u) →
  others i (map f l) = others i l.
Proof.
  intros Hid Hf. unfold others. induction l as [|u l IH]; [done|].
  simpl. unfold has_id at 1. rewrite Hid. fold (has_id i u).
  destruct (has_id i u) eqn:Hu; simpl; [done|].
  by rewrite Hf, IH.
Qed.

Lemma others_written i v t us :
  others i (written i (set_refreshToken v) t us) = others i us.
Proof.
  apply others_map.
  - intros u. by destruct (has_id i u).
  - by intros u ->.
Qed.

Lemma others_logged_out i t us : others i (logged_out i t us) = others i us.
Proof.
  apply others_map.
  - intros u. by destruct (has_session i u).
  - intros u Hu. unfold has_session. by rewrite Hu.
Qed.

Lemma identity_written i v t us :
  map identity_of (written i (set_refreshToken v) t us) = map identity_of us.
Proof.
  unfold written. rewrite map_map. apply map_ext.
  intros u. by destruct (has_id i u).
Qed.

Lemma identity_logged_out i t us :
  map identity_of (logged_out i t us) = map identity_of us.
Proof.
  unfold logged_out. rewrite map_map. apply map_ext.
  intros u. by destruct (has_session i u).
Qed.

Lemma identity_emails us us' :
  map identity_of us' = map identity_of us → map email us' = map email us.
Proof.
  intros H.
  assert (Hmap : ∀ l, map email l = map (λ p, p.1.1.1.1.2) (map identity_of l))
    by (intros l; rewrite map_map; by apply map_ext).
  by rewrite !Hmap, H.
Qed.

Lemma identity_ids us us' :
  map identity_of us' = map identity_of us → map id us' = map id us.
Proof.
  intros H.
  assert (Hmap : ∀ l, map id l = map (λ p, p.1.1.1.1.1) (map identity_of l))
    by (intros l; rewrite map_map; by apply map_ext).
  by rewrite !Hmap, H.
Qed.

(** The first row with an email that no earlier row has. *)
Lemma find_email_app e us u :
  existsb (has_email e) us = false → email u = e →
  find (has_email e) (us ++ [u]) = Some u.
Proof.
  intros Hnone Hu. induction us as [|v us IH]; simpl in *.
  - unfold has_email. by rewrite bool_decide_eq_true_2.
  - apply orb_false_iff in Hnone as [-> Hnone]. by apply IH.
Qed.

Lemma find_id_app i us u :
  Forall (λ v, id v ≠ i) us → id u = i →
  find (has_id i) (us ++ [u]) = Some u.
Proof.
  intros Hnone Hu. induction Hnone as [|v us Hv _ IH]; simpl.
  - unfold has_id. by rewrite bool_decide_eq_true_2.
  - unfold has_id at 1. by rewrite bool_decide_eq_false_2.
Qed.

(** ** What the payload holds *)

Lemma sanitized_fields u :
  sanitized u
  = <["id" := VNum (id u)]>
      (<["email" := VStr (email u)]>
         (<["name" := VStr (name u)]>
            (<["role" := VRole (role u)]> ∅))).
Proof. vm_compute. reflexivity. Qed.

(** A write of the fingerprint does not show in the payload. *)
Lemma sanitized_touch t v u :
  sanitized (touch t (set_refreshToken v u)) = sanitized u.
Proof. by rewrite !sanitized_fields. Qed.

(** With unique ids, the row found by email is the row found by its
    id. *)
Lemma find_id_of_elem l u :
  NoDup (map id l) → u ∈ l → find (has_id (id u)) l = Some u.
Proof.
  induction l as [|v l IH]; [by intros _ ?%not_elem_of_nil|].
  intros [Hv Hl]%NoDup_cons Hu. simpl. unfold has_id at 1.
  case_bool_decide as Hid.
  - apply elem_of_cons in Hu as [->|Hu]; [done|].
    destruct Hv. rewrite Hid. apply list_elem_of_fmap. eauto.
  - apply elem_of_cons in Hu as [->|Hu]; [done | by apply IH].
Qed.

(** ** Well-formed tables *)

Lemma well_formed_same_identity w w' :
  map identity_of (users w') = map identity_of (users w) →
  next_id w' = next_id w →
  well_formed w → well_formed w'.
Proof.
  intros Hid Hnext (Hemails & Hids & Hbound). unfold well_formed.
  rewrite (identity_emails _ _ Hid), (identity_ids _ _ Hid), Hnext.
  split; [done|]. split; [done|].
  apply (proj1 (Forall_map id (λ i, i < next_id w) (users w'))).
  rewrite (identity_ids _ _ Hid).
  by apply (proj2 (Forall_map id (λ i, i < next_id w) (users w))).
Qed.

Lemma existsb_email_absent e us :
  existsb (has_email e) us = false → e ∉ map email us.
Proof.
  intros Hnone (u & -> & Hu)%list_elem_of_fmap.
  assert (existsb (has_email (email u)) us = true); [|congruence].
  apply existsb_exists. exists u. split; [by apply list_elem_of_In|].
  unfold has_email. by apply bool_decide_eq_true.
Qed.

Lemma well_formed_insert w w' u :
  users w' = (users w ++ [u])%list →
  next_id w' = next_id w + 1 →
  id u = next_id w →
  existsb (has_email (email u)) (users w) = false →
  well_formed w → well_formed w'.
Proof.
  intros Hus Hnext Hid Hfree (Hemails & Hids & Hbound). unfold well_formed.
  rewrite Hus, Hnext, !map_app. simpl. repeat split.
  - apply NoDup_app. split; [done|]. split; [|apply NoDup_singleton].
    intros e He Heq%list_elem_of_singleton. subst e.
    by apply (existsb_email_absent _ _ Hfree).
  - apply NoDup_app. split; [done|]. split; [|apply NoDup_singleton].
    intros i (v & -> & Hv)%list_elem_of_fmap Heq%list_elem_of_singleton.
    rewrite Forall_forall in Hbound. specialize (Hbound v Hv).
    simpl in Hbound. lia.
  - apply Forall_app. split.
    + eapply Forall_impl; [exact Hbound|]. intros v Hv. simpl in Hv. lia.
    + apply Forall_singleton. lia.
Qed.

(** The handler of [login] rethrows a failure of the store's own. *)
Lemma login_catch_rejection f : login_catch (rejection f) = rejection f.
Proof. unfold login_catch. by store_rejects f. Qed.

(** ** Further properties of the service *)

Section Further.

Variable hash : nat → string → string.
Variable verify : string → string → bool.
Variable signAsync : JwtPayload → SignOptions → Z → string + string.
Variable config_get : string → option string.

(** The shared steps fail before the table or the response is written,
    and with the signer's or the store's error only. *)
Lemma open_session_throw_inv userId email role w e w' :
  open_session hash signAsync config_get userId email role w = (Throw e, w') →
  users w' = users w ∧ res w' = res w ∧
  ((∃ f, e = rejection f) ∨
   e = PrismaClientKnownRequestError "P2025" ∧
   find (has_id userId) (users w) = None).
Proof.
  rewrite open_session_run.
  destruct (signAsync _ (access_options _) _) as [reason|a].
  { intros [= <- <-]. repeat split. left. by exists (OtherError reason). }
  destruct (signAsync _ (refresh_options _) _) as [reason|r].
  { intros [= <- <-]. repeat split. left. by exists (OtherError reason). }
  simpl. destruct (faulty w) as [f|].
  { intros [= ? ?]. subst. repeat split. eauto. }
  destruct (find _ _); intros [= <- <-]; eauto.
Qed.

Lemma open_session_ok_inv userId email role w tokens w' :
  open_session hash signAsync config_get userId email role w
  = (Ok tokens, w') →
  faulty w = None ∧
  is_Some (find (has_id userId) (users w)) ∧
  signAsync (claims_of userId email role) (access_options config_get) (now w)
  = inr (access_token tokens) ∧
  signAsync (claims_of userId email role) (refresh_options config_get) (now w)
  = inr (refresh_token tokens) ∧
  users w'
  = written userId
      (set_refreshToken (Some (hash (entropy w) (refresh_token tokens))))
      (now w) (users w) ∧
  res w' = (res w ++ delivered tokens)%list ∧
  next_id w' = next_id w.
Proof.
  rewrite open_session_run.
  destruct (signAsync _ (access_options _) _) as [?|a]; [intros [=]|].
  destruct (signAsync _ (refresh_options _) _) as [?|r]; [intros [=]|].
  simpl. destruct (faulty w); [intros [=]|].
  destruct (find _ _); intros [= <- <-]; eauto 10.
Qed.

Lemma open_session_ok userId email role w a r :
  db_faults w = [] →
  is_Some (find (has_id userId) (users w)) →
  signAsync (claims_of userId email role) (access_options config_get) (now w)
  = inr a →
  signAsync (claims_of userId email role) (refresh_options config_get) (now w)
  = inr r →
  (open_session hash signAsync config_get userId email role w).1
  = Ok {| access_token := a; refresh_token := r |}.
Proof.
  intros Hup [u Hu] Ha Hr.
  by rewrite open_session_run, Ha, Hr, (faulty_up w Hup), Hu.
Qed.

Lemma refreshTokens_ok userId rt w user digest a r :
  db_faults w = [] →
  find (has_id userId) (users w) = Some user →
  refreshToken user = Some digest →
  digest ≠ "" →
  verify digest rt = true →
  signAsync (claims_of userId (email user) (role user))
            (access_options config_get) (now w) = inr a →
  signAsync (claims_of userId (email user) (role user))
            (refresh_options config_get) (now w) = inr r →
  (refreshTokens hash verify signAsync config_get userId rt w).1
  = Ok (sanitized user, {| access_token := a; refresh_token := r |}).
Proof.
  intros Hup Hfind Hrt Hne Hv Ha Hr.
  rewrite refreshTokens_run, (faulty_up w Hup). simpl.
  rewrite Hfind, Hrt, Hv. unfold truthy_string.
  rewrite bool_decide_eq_false_2 by done. simpl.
  pose proof (open_session_ok userId (email user) (role user)
                (logged (OpFindUnique userId) w) a r) as Hok.
  destruct (open_session _ _ _ _ _ _ _) as [r' w1]. simpl in Hok.
  rewrite Hok; [done | by rewrite Hup | by simpl; rewrite Hfind | done..].
Qed.

(** The table that an operation leaves is the one it found, or the one
    it found with one write. *)
Lemma open_session_table userId email role w :
  let w' := (open_session hash signAsync config_get userId email role w).2 in
  next_id w' = next_id w ∧
  (users w' = users w ∨
   ∃ salt plain,
     users w'
     = written userId (set_refreshToken (Some (hash salt plain))) (now w)
               (users w)).
Proof.
  rewrite open_session_run.
  destruct (signAsync _ (access_options _) _) as [?|a]; [by auto|].
  destruct (signAsync _ (refresh_options _) _) as [?|r]; [by auto|].
  simpl. destruct (faulty w); [by auto|].
  destruct (find _ _); simpl; eauto.
Qed.

Lemma login_table dto w :
  let w' := (login hash verify signAsync config_get dto w).2 in
  next_id w' = next_id w ∧
  (users w' = users w ∨
   ∃ i salt plain,
     users w'
     = written i (set_refreshToken (Some (hash salt plain))) (now w)
               (users w)).
Proof.
  rewrite login_run. simpl.
  destruct (faulty w); [by auto|].
  destruct (find _ _) as [user|]; [|by auto].
  destruct (verify _ _); [|by auto].
  pose proof (open_session_table (id user) (email user) (role user)
                (logged (OpFindFirst (login_email dto)) w)) as [Hn Hus].
  destruct (open_session _ _ _ _ _ _ _) as [[tokens|e] w1]; simpl in *;
    (split; [done|]); destruct Hus as [?|(salt & plain & ?)]; eauto.
Qed.

Lemma refreshTokens_table userId rt w :
  let w' := (refreshTokens hash verify signAsync config_get userId rt w).2 in
  next_id w' = next_id w ∧
  (users w' = users w ∨
   ∃ salt plain,
     users w'
     = written userId (set_refreshToken (Some (hash salt plain))) (now w)
               (users w)).
Proof.
  rewrite refreshTokens_run. simpl.
  destruct (faulty w); [by auto|].
  destruct (find _ _) as [user|]; [|by auto].
  destruct (refreshToken user) as [digest|]; [|by auto].
  destruct (truthy_string digest && verify digest rt); [|by auto].
  pose proof (open_session_table userId (email user) (role user)
                (logged (OpFindUnique userId) w)) as [Hn Hus].
  by destruct (open_session _ _ _ _ _ _ _) as [[tokens|e] w1].
Qed.

Lemma googleAuthCallback_table req w :
  let w' := (googleAuthCallback hash signAsync config_get req w).2 in
  next_id w' = next_id w ∧
  (users w' = users w ∨
   ∃ salt plain,
     users w'
     = written (auth_id req) (set_refreshToken (Some (hash salt plain)))
               (now w) (users w)).
Proof.
  rewrite googleAuthCallback_unfold.
  destruct (signAsync _ (access_options _) _) as [?|a]; [by auto|].
  destruct (signAsync _ (refresh_options _) _) as [?|r]; [by auto|].
  simpl. destruct (faulty w); [by auto|].
  destruct (find _ _); simpl; eauto.
Qed.

Lemma logout_table userId w :
  let w' := (logout userId w).2 in
  next_id w' = next_id w ∧
  (users w' = users w ∨ users w' = logged_out userId (now w) (users w)).
Proof. rewrite logout_run. destruct (faulty w); simpl; auto. Qed.

Lemma signup_table dto w :
  let w' := (signup hash dto w).2 in
  (next_id w' = next_id w ∧ users w' = users w) ∨
  (next_id w' = next_id w + 1 ∧
   users w' = (users w ++ [new_row hash dto w])%list ∧
   existsb (has_email (signup_email dto)) (users w) = false).
Proof.
  rewrite signup_run. simpl.
  destruct (faulty w); [by auto|].
  destruct (existsb _ _); simpl; auto.
Qed.

(** The outcome of a refresh depends on the world through the row of the
    user, the clock and the reachability of the store. *)
Lemma open_session_outcome_ext userId email role w1 w2 :
  find (has_id userId) (users w1) = find (has_id userId) (users w2) →
  now w1 = now w2 →
  faulty w1 = faulty w2 →
  (open_session hash signAsync config_get userId email role w1).1
  = (open_session hash signAsync config_get userId email role w2).1.
Proof.
  intros Hfind Hnow Hfaulty.
  rewrite !open_session_run, Hnow, Hfaulty, Hfind.
  by repeat case_match.
Qed.

Lemma refreshTokens_outcome_ext userId rt w1 w2 :
  find (has_id userId) (users w1) = find (has_id userId) (users w2) →
  now w1 = now w2 →
  db_faults w1 = db_faults w2 →
  (refreshTokens hash verify signAsync config_get userId rt w1).1
  = (refreshTokens hash verify signAsync config_get userId rt w2).1.
Proof.
  intros Hfind Hnow Hfaults.
  assert (Hfaulty : faulty w1 = faulty w2) by (unfold faulty; by rewrite Hfaults).
  rewrite !refreshTokens_run, Hfaulty, Hfind. simpl.
  destruct (faulty w2); [done|].
  destruct (find (has_id userId) (users w2)) as [user|] eqn:Hu; [|done].
  destruct (refreshToken user) as [digest|]; [|done].
  destruct (truthy_string digest && verify digest rt); [|done].
  pose proof (open_session_outcome_ext userId (email user) (role user)
                (logged (OpFindUnique userId) w1)
                (logged (OpFindUnique userId) w2)) as Hext.
  destruct (open_session _ _ _ _ _ _ (logged _ w1)) as [r1 w1'].
  destruct (open_session _ _ _ _ _ _ (logged _ w2)) as [r2 w2'].
  simpl in Hext. rewrite Hext; [by destruct r2 | congruence | done |].
  unfold faulty. simpl. by rewrite Hfaults.
Qed.

(** X1. Whatever operation of the service throws, the user table and the
    response are as they were before the call: the store write is the
    last step that can fail, and the cookies are set after it. *)
Theorem failures_leave_no_trace w :
  (∀ dto e w',
     signup hash dto w = (Throw e, w') →
     users w' = users w ∧ res w' = res w) ∧
  (∀ dto e w',
     login hash verify signAsync config_get dto w = (Throw e, w') →
     users w' = users w ∧ res w' = res w) ∧
  (∀ userId e w',
     logout userId w = (Throw e, w') →
     users w' = users w ∧ res w' = res w) ∧
  (∀ userId rt e w',
     refreshTokens hash verify signAsync config_get userId rt w
     = (Throw e, w') →
     users w' = users w ∧ res w' = res w) ∧
  (∀ req e w',
     googleAuthCallback hash signAsync config_get req w = (Throw e, w') →
     users w' = users w ∧ res w' = res w).
Proof.
  repeat apply conj.
  - intros dto e w'. rewrite signup_run. simpl.
    destruct (faulty w); [by intros [= <- <-]|].
    destruct (existsb _ _); [by intros [= <- <-] | intros [=]].
  - intros dto e w'. rewrite login_run. simpl.
    destruct (faulty w); [by intros [= <- <-]|].
    destruct (find _ _) as [user|]; [|by intros [= <- <-]].
    destruct (verify _ _); [|by intros [= <- <-]].
    destruct (open_session _ _ _ _ _ _ _) as [[tokens|e'] w1] eqn:Hrun;
      intros [= <- <-].
    by apply open_session_throw_inv in Hrun as (-> & -> & _).
  - intros userId e w'. rewrite logout_run.
    by destruct (faulty w); intros [= <- <-].
  - intros userId rt e w'. rewrite refreshTokens_run. simpl.
    destruct (faulty w); [by intros [= <- <-]|].
    destruct (find _ _) as [user|]; [|by intros [= <- <-]].
    destruct (refreshToken user) as [digest|]; [|by intros [= <- <-]].
    destruct (truthy_string digest && verify digest rt);
      [|by intros [= <- <-]].
    destruct (open_session _ _ _ _ _ _ _) as [[tokens|e'] w1] eqn:Hrun;
      intros [= <- <-].
    by apply open_session_throw_inv in Hrun as (-> & -> & _).
  - intros req e w'. rewrite googleAuthCallback_unfold.
    destruct (signAsync _ (access_options _) _) as [?|a];
      [by intros [= <- <-]|].
    destruct (signAsync _ (refresh_options _) _) as [?|r];
      [by intros [= <- <-]|].
    simpl. destruct (faulty w); [by intros [= <- <-]|].
    destruct (find _ _); [intros [=] | by intros [= <- <-]].
Qed.

(** X2. The exceptions of each operation.  Signup throws Conflict or
    the store's error, and never the raw uniqueness violation; login
    throws Unauthorized, BadRequest, or the store's or the signer's
    error, and never the raw not-found error of the store; refresh
    throws Forbidden or such an error; the federated callback throws
    such an error or the raw not-found error P2025, the latter exactly
    for an id that no row has.  The store's or the signer's error is a
    known request error of a code that the rows do not decide, or an
    error of another class. *)
Theorem exceptions_thrown w :
  (∀ dto e,
     (signup hash dto w).1 = Throw e →
     (e = ConflictException (Lines ["Email is already in use"]) ∨
      ∃ f, e = rejection f) ∧
     e ≠ PrismaClientKnownRequestError "P2002") ∧
  (∀ dto e,
     (login hash verify signAsync config_get dto w).1 = Throw e →
     (e = UnauthorizedException (Text "Email or password incorrect.") ∨
      e = BadRequestException (Text "Email or password incorrect.") ∨
      ∃ f, e = rejection f) ∧
     e ≠ PrismaClientKnownRequestError "P2025") ∧
  (∀ userId rt e,
     (refreshTokens hash verify signAsync config_get userId rt w).1
     = Throw e →
     e = ForbiddenException (Text "Access Denied.") ∨
     ∃ f, e = rejection f) ∧
  (∀ req e,
     (googleAuthCallback hash signAsync config_get req w).1 = Throw e →
     e = PrismaClientKnownRequestError "P2025" ∧
     find (has_id (auth_id req)) (users w) = None ∨
     (∃ f, e = rejection f) ∧ e ≠ PrismaClientKnownRequestError "P2025").
Proof.
  repeat apply conj.
  - intros dto e. rewrite signup_run. simpl.
    destruct (faulty w) as [f|].
    { intros [= <-]. split; [by eauto | apply rejection_not_P2002]. }
    destruct (existsb _ _); intros [= <-]. by split; [left|].
  - intros dto e. rewrite login_run. simpl.
    destruct (faulty w) as [f|].
    { intros [= <-]. split; [by eauto | apply rejection_not_P2025]. }
    destruct (find _ _) as [user|] eqn:Hfind;
      [|intros [= <-]; by split; [left|]].
    destruct (verify _ _); [|intros [= <-]; by split; [right; left|]].
    destruct (open_session _ _ _ _ _ _ _) as [[tokens|e'] w1] eqn:Hrun;
      intros [= <-].
    apply open_session_throw_inv in Hrun as (_ & _ & [[f ->]|[_ Hnone]]).
    + rewrite login_catch_rejection.
      split; [by eauto | apply rejection_not_P2025].
    + apply find_elem, find_has_id_elem in Hfind as [u Hu].
      simpl in Hnone. congruence.
  - intros userId rt e. rewrite refreshTokens_run. simpl.
    destruct (faulty w) as [f|]; [intros [= <-]; by eauto|].
    destruct (find _ _) as [user|] eqn:Hfind; [|intros [= <-]; eauto].
    destruct (refreshToken user) as [digest|]; [|intros [= <-]; eauto].
    destruct (truthy_string digest && verify digest rt);
      [|intros [= <-]; eauto].
    destruct (open_session _ _ _ _ _ _ _) as [[tokens|e'] w1] eqn:Hrun;
      intros [= <-].
    apply open_session_throw_inv in Hrun as (_ & _ & [[f ->]|[_ Hnone]]);
      [by eauto|].
    simpl in Hnone. congruence.
  - intros req e. rewrite googleAuthCallback_unfold.
    destruct (signAsync _ (access_options _) _) as [reason|a].
    { intros [= <-]. right. by split; [exists (OtherError reason)|]. }
    destruct (signAsync _ (refresh_options _) _) as [reason|r].
    { intros [= <-]. right. by split; [exists (OtherError reason)|]. }
    simpl. destruct (faulty w) as [f|].
    { intros [= <-]. right.
      split; [by eauto | apply rejection_not_P2025]. }
    destruct (find _ _); [intros [=] | intros [= <-]; eauto].
Qed.

(** X3. On a reachable store login succeeds exactly when some row has
    the email, the password verifies against the digest of the first
    such row, and both signing calls are fulfilled; the payload is then
    the sanitized row and the two tokens the signer returned for the
    claims of that row. *)
Theorem login_succeeds_iff dto w out :
  db_faults w = [] →
  ((login hash verify signAsync config_get dto w).1 = Ok out ↔
   ∃ user,
     find (has_email (login_email dto)) (users w) = Some user ∧
     verify (password user) (login_password dto) = true ∧
     out.1 = sanitized user ∧
     signAsync (claims_of (id user) (email user) (role user))
               (access_options config_get) (now w)
     = inr (access_token out.2) ∧
     signAsync (claims_of (id user) (email user) (role user))
               (refresh_options config_get) (now w)
     = inr (refresh_token out.2)).
Proof.
  intros Hup. rewrite login_run, (faulty_up w Hup). simpl. split.
  - destruct (find _ _) as [user|]; [|intros [=]].
    destruct (verify _ _) eqn:Hv; [|intros [=]].
    destruct (open_session _ _ _ _ _ _ _) as [[tokens|e] w1] eqn:Hrun;
      intros [= <-].
    apply open_session_ok_inv in Hrun as (_ & _ & Ha & Hr & _).
    exists user. by repeat split.
  - intros (user & Hfind & Hv & Hout & Ha & Hr). rewrite Hfind, Hv.
    pose proof (open_session_ok (id user) (email user) (role user)
                  (logged (OpFindFirst (login_email dto)) w)
                  (access_token out.2) (refresh_token out.2)) as Hok.
    destruct (open_session _ _ _ _ _ _ _) as [r w1]. simpl in Hok.
    rewrite Hok.
    + destruct out as [payload [a r']]. simpl in *. by rewrite Hout.
    + by rewrite Hup.
    + apply find_has_id_elem. by apply find_elem in Hfind.
    + exact Ha.
    + exact Hr.
Qed.

(** X4. On a reachable store refresh succeeds exactly when a row has
    the id, its fingerprint is a non-empty digest against which the
    presented token verifies, and both signing calls are fulfilled; the
    payload is then the sanitized row and the two tokens the signer
    returned for the claims of that row. *)
Theorem refresh_succeeds_iff userId rt w out :
  db_faults w = [] →
  ((refreshTokens hash verify signAsync config_get userId rt w).1 = Ok out ↔
   ∃ user digest,
     find (has_id userId) (users w) = Some user ∧
     refreshToken user = Some digest ∧
     digest ≠ "" ∧
     verify digest rt = true ∧
     out.1 = sanitized user ∧
     signAsync (claims_of userId (email user) (role user))
               (access_options config_get) (now w)
     = inr (access_token out.2) ∧
     signAsync (claims_of userId (email user) (role user))
               (refresh_options config_get) (now w)
     = inr (refresh_token out.2)).
Proof.
  intros Hup. rewrite refreshTokens_run, (faulty_up w Hup). simpl. split.
  - destruct (find _ _) as [user|]; [|intros [=]].
    destruct (refreshToken user) as [digest|] eqn:Hrt; [|intros [=]].
    unfold truthy_string. case_bool_decide as Hne; [intros [=]|]. simpl.
    destruct (verify _ _) eqn:Hv; [|intros [=]].
    destruct (open_session _ _ _ _ _ _ _) as [[tokens|e] w1] eqn:Hrun;
      intros [= <-].
    apply open_session_ok_inv in Hrun as (_ & _ & Ha & Hr & _).
    exists user, digest. by repeat split.
  - intros (user & digest & Hfind & Hrt & Hne & Hv & Hout & Ha & Hr).
    rewrite Hfind, Hrt, Hv. unfold truthy_string.
    rewrite bool_decide_eq_false_2 by done. simpl.
    pose proof (open_session_ok userId (email user) (role user)
                  (logged (OpFindUnique userId) w)
                  (access_token out.2) (refresh_token out.2)) as Hok.
    destruct (open_session _ _ _ _ _ _ _) as [r w1]. simpl in Hok.
    rewrite Hok.
    + destruct out as [payload [a r']]. simpl in *. by rewrite Hout.
    + by rewrite Hup.
    + simpl. by rewrite Hfind.
    + exact Ha.
    + exact Hr.
Qed.

(** X5. What a successful login or refresh writes: the fingerprint of
    every row with the user's id becomes the digest of the refresh
    token in the payload, and the response gets two cookies, first
    ACCESS_TOKEN with a max age of 900000 then REFRESH_TOKEN with a max
    age of 604800000, whose values are the two tokens of the payload. *)
Theorem session_is_stored_and_delivered w :
  (∀ dto out w',
     login hash verify signAsync config_get dto w = (Ok out, w') →
     ∃ user,
       find (has_email (login_email dto)) (users w) = Some user ∧
       users w'
       = map (λ u, if has_id (id user) u
                   then touch (now w)
                          (set_refreshToken
                             (Some (hash (entropy w) (refresh_token out.2)))
                             u)
                   else u) (users w) ∧
       res w'
       = (res w ++ [Cookie "ACCESS_TOKEN" (access_token out.2) (Some 900000);
                    Cookie "REFRESH_TOKEN" (refresh_token out.2)
                           (Some 604800000)])%list) ∧
  (∀ userId rt out w',
     refreshTokens hash verify signAsync config_get userId rt w
     = (Ok out, w') →
     users w'
     = map (λ u, if has_id userId u
                 then touch (now w)
                        (set_refreshToken
                           (Some (hash (entropy w) (refresh_token out.2)))
                           u)
                 else u) (users w) ∧
     res w'
     = (res w ++ [Cookie "ACCESS_TOKEN" (access_token out.2) (Some 900000);
                  Cookie "REFRESH_TOKEN" (refresh_token out.2)
                         (Some 604800000)])%list).
Proof.
  split.
  - intros dto out w'. rewrite login_run. simpl.
    destruct (faulty w); [intros [=]|].
    destruct (find _ _) as [user|]; [|intros [=]].
    destruct (verify _ _); [|intros [=]].
    destruct (open_session _ _ _ _ _ _ _) as [[tokens|e] w1] eqn:Hrun;
      intros [= <- <-].
    apply open_session_ok_inv in Hrun as (_ & _ & _ & _ & Husers & Hres & _).
    exists user. by repeat split.
  - intros userId rt out w' Hrun.
    by apply refreshTokens_ok_inv in Hrun
      as (user & digest & _ & _ & _ & _ & _ & _ & _ & _ & Husers & Hres).
Qed.

(** X6. Login rotates the fingerprint.  Under a hasher whose digests
    verify their plaintext and nothing else, after a successful login
    the fingerprint stored for the user verifies the refresh token of
    the payload and no other, and a refresh that presents any other
    token, such as one handed out before, is denied with Forbidden. *)
Theorem login_rotates_fingerprint dto w out w1 :
  (∀ salt plain candidate,
     verify (hash salt plain) candidate = true ↔ plain = candidate) →
  login hash verify signAsync config_get dto w = (Ok out, w1) →
  ∃ user,
    find (has_email (login_email dto)) (users w) = Some user ∧
    (∃ row digest,
       find (has_id (id user)) (users w1) = Some row ∧
       refreshToken row = Some digest ∧
       ∀ candidate,
         verify digest candidate = true ↔
         candidate = refresh_token out.2) ∧
    (∀ rt w2,
       rt ≠ refresh_token out.2 →
       users w2 = users w1 → faulty w2 = None →
       (refreshTokens hash verify signAsync config_get (id user) rt w2).1
       = Throw access_denied).
Proof.
  intros Hideal. rewrite login_run. simpl.
  destruct (faulty w); [intros [=]|].
  destruct (find _ _) as [user|] eqn:Hfind; [|intros [=]].
  destruct (verify _ _); [|intros [=]].
  destruct (open_session _ _ _ _ _ _ _) as [[tokens|e] w'] eqn:Hrun;
    intros [= <- <-].
  apply open_session_ok_inv in Hrun as (_ & [row Hrow] & _ & _ & Husers & _).
  simpl in *.
  assert (Hnew : find (has_id (id user)) (users w')
                 = Some (touch (now w)
                           (set_refreshToken
                              (Some (hash (entropy w) (refresh_token tokens)))
                              row))).
  { rewrite Husers, find_written by done. by rewrite Hrow. }
  exists user. split; [done|]. split.
  - eexists _, _. split; [exact Hnew|]. split; [reflexivity|].
    intros candidate. rewrite Hideal. split; congruence.
  - intros rt w2 Hother Hsame Hup.
    rewrite refreshTokens_denied; [done..|].
    right. eexists. rewrite Hsame. split; [exact Hnew|].
    right. eexists. split; [reflexivity|]. right.
    destruct (verify _ rt) eqn:Hv; [|reflexivity].
    apply Hideal in Hv. congruence.
Qed.

(** X7. The refresh token that a successful refresh hands out is
    accepted by the next refresh.  Under a hasher whose digests are not
    empty and verify their plaintext, on a reachable store and with the
    signer fulfilling both calls, a refresh that presents the token of
    the previous payload succeeds, with the same user object and the
    newly signed pair. *)
Theorem issued_token_is_accepted userId rt w out w1 user w2 a r :
  (∀ salt plain, verify (hash salt plain) plain = true) →
  (∀ salt plain, hash salt plain ≠ "") →
  refreshTokens hash verify signAsync config_get userId rt w = (Ok out, w1) →
  find (has_id userId) (users w) = Some user →
  users w2 = users w1 →
  db_faults w2 = [] →
  signAsync (claims_of userId (email user) (role user))
            (access_options config_get) (now w2) = inr a →
  signAsync (claims_of userId (email user) (role user))
            (refresh_options config_get) (now w2) = inr r →
  (refreshTokens hash verify signAsync config_get userId
                 (refresh_token out.2) w2).1
  = Ok (out.1, {| access_token := a; refresh_token := r |}).
Proof.
  intros Hverify Hfull Hrun Hfind Hsame Hup Ha Hr.
  apply refreshTokens_ok_inv in Hrun
    as (user' & digest & _ & Hfind' & _ & _ & _ & _ & _ & -> & Husers & _).
  assert (user' = user) as -> by congruence.
  rewrite selected_is_sanitized.
  rewrite <- (sanitized_touch (now w)
               (Some (hash (entropy w) (refresh_token out.2))) user).
  apply (refreshTokens_ok _ _ _ _ (hash (entropy w) (refresh_token out.2)));
    try done.
  rewrite Hsame, Husers, find_written by done. by rewrite Hfind.
Qed.

(** X8. Login, logout, refresh and the federated callback change no
    column but the fingerprint and the update timestamp: the ids,
    emails, password digests, names, roles and creation times of the
    table are the same after the call, whatever its outcome, and no row
    is added or removed.  Logout, refresh and the callback moreover
    leave every row of another id as it was. *)
Theorem only_the_session_columns_change w :
  (∀ dto,
     map identity_of
         (users (login hash verify signAsync config_get dto w).2)
     = map identity_of (users w)) ∧
  (∀ userId,
     map identity_of (users (logout userId w).2) = map identity_of (users w) ∧
     others userId (users (logout userId w).2) = others userId (users w)) ∧
  (∀ userId rt,
     let w' :=
       (refreshTokens hash verify signAsync config_get userId rt w).2 in
     map identity_of (users w') = map identity_of (users w) ∧
     others userId (users w') = others userId (users w)) ∧
  (∀ req,
     let w' := (googleAuthCallback hash signAsync config_get req w).2 in
     map identity_of (users w') = map identity_of (users w) ∧
     others (auth_id req) (users w') = others (auth_id req) (users w)).
Proof.
  split; [|split; [|split]].
  - intros dto.
    destruct (login_table dto w) as [_ [->|(i & salt & plain & ->)]];
      [done | apply identity_written].
  - intros userId.
    destruct (logout_table userId w) as [_ [->| ->]];
      [done | split; [apply identity_logged_out | apply others_logged_out]].
  - intros userId rt. cbv zeta.
    destruct (refreshTokens_table userId rt w) as [_ [->|(salt & plain & ->)]];
      [done | split; [apply identity_written | apply others_written]].
  - intros req. cbv zeta.
    destruct (googleAuthCallback_table req w) as [_ [->|(salt & plain & ->)]];
      [done | split; [apply identity_written | apply others_written]].
Qed.

(** X9. Sessions are independent.  On a reachable store, the outcome of
    a refresh for one user is the same after a logout of another user,
    and after a refresh of another user, as it is before. *)
Theorem sessions_are_independent userA userB rt w :
  userA ≠ userB →
  db_faults w = [] →
  (refreshTokens hash verify signAsync config_get userB rt
                 (logout userA w).2).1
  = (refreshTokens hash verify signAsync config_get userB rt w).1 ∧
  (∀ rtA,
     (refreshTokens hash verify signAsync config_get userB rt
        (refreshTokens hash verify signAsync config_get userA rtA w).2).1
     = (refreshTokens hash verify signAsync config_get userB rt w).1).
Proof.
  intros Hne Hup. split.
  - apply refreshTokens_outcome_ext.
    + destruct (logout_table userA w) as [_ [->| ->]];
        [done | by apply find_logged_out_other].
    + rewrite logout_run. by destruct (faulty w).
    + rewrite logout_run, (faulty_up w Hup). simpl. by rewrite Hup.
  - intros rtA. apply refreshTokens_outcome_ext.
    + destruct (refreshTokens_table userA rtA w) as [_ [->|(salt & plain & ->)]];
        [done | by apply find_written_other].
    + rewrite refreshTokens_run. simpl. repeat case_match; try done.
      all: rewrite open_session_run in *; simpl in *;
        repeat case_match; by simplify_eq.
    + rewrite refreshTokens_run, (faulty_up w Hup). simpl.
      repeat case_match; try (simpl; by rewrite Hup).
      all: rewrite open_session_run in *; simpl in *;
        repeat case_match; simplify_eq; simpl; by rewrite Hup.
Qed.

(** X10. The federated callback, when the store is reachable and both
    signing calls are fulfilled.  For an id that some row has it
    succeeds, the fingerprint of that id becomes the digest of the new
    refresh token, and the response gets the cookie test=hola without a
    max age followed by the two token cookies.  For an id that no row
    has it throws the store's not-found error P2025 as it is, after the
    two tokens were signed, and sets no cookie. *)
Theorem googleAuthCallback_outcomes req w a r :
  faulty w = None →
  signAsync (claims_of (auth_id req) (auth_email req) (auth_role req))
            (access_options config_get) (now w) = inr a →
  signAsync (claims_of (auth_id req) (auth_email req) (auth_role req))
            (refresh_options config_get) (now w) = inr r →
  let run := googleAuthCallback hash signAsync config_get req w in
  (is_Some (find (has_id (auth_id req)) (users w)) →
   run.1 = Ok tt ∧
   users run.2
   = map (λ u, if has_id (auth_id req) u
               then touch (now w)
                      (set_refreshToken (Some (hash (entropy w) r)) u)
               else u) (users w) ∧
   res run.2
   = (res w ++ [Cookie "test" "hola" None;
                Cookie "ACCESS_TOKEN" a (Some 900000);
                Cookie "REFRESH_TOKEN" r (Some 604800000)])%list) ∧
  (find (has_id (auth_id req)) (users w) = None →
   run.1 = Throw (PrismaClientKnownRequestError "P2025") ∧
   users run.2 = users w ∧
   res run.2 = res w ∧
   jwt_calls run.2 = S (S (jwt_calls w))).
Proof.
  intros Hup Ha Hr run. unfold run.
  rewrite googleAuthCallback_unfold, Ha, Hr, Hup. simpl. split.
  - by intros [u ->].
  - by intros ->.
Qed.

(** X11. Signup, on a reachable store and for an email that no row has,
    appends one row: the next id, the email and the name of the input,
    the digest of the password, the standard role and no fingerprint.
    It returns that row sanitized, signs no token and sets no cookie;
    and when no row had that id before, a refresh for the new user is
    denied whatever token is presented: signing up does not log in. *)
Theorem signup_creates_user dto w :
  faulty w = None →
  existsb (has_email (signup_email dto)) (users w) = false →
  let run := signup hash dto w in
  let row :=
    mkUser (next_id w) (signup_email dto)
           (hash (entropy w) (signup_password dto))
           (signup_name dto) STANDARD None (now w) (now w) in
  run.1 = Ok (sanitized row) ∧
  users run.2 = (users w ++ [row])%list ∧
  next_id run.2 = next_id w + 1 ∧
  jwt_calls run.2 = jwt_calls w ∧
  res run.2 = res w ∧
  (Forall (λ u, id u ≠ next_id w) (users w) →
   faulty run.2 = None →
   ∀ rt,
     (refreshTokens hash verify signAsync config_get (next_id w) rt run.2).1
     = Throw access_denied).
Proof.
  intros Hup Hfree run row. unfold run.
  rewrite signup_run, Hup, Hfree. simpl.
  do 5 (split; [done|]). intros Hfresh Hup' rt.
  rewrite refreshTokens_denied; [done..|].
  right. exists row. simpl.
  split; [by apply find_id_app | by left].
Qed.

(** X12. Signup then login.  Under a hasher whose digests verify their
    plaintext and nothing else, after a successful signup a login with
    the same email on a reachable store fails with BadRequest for every
    other password, and with the same password and both signing calls
    fulfilled it succeeds and returns the user object that signup
    returned. *)
Theorem signup_then_login dto w payload w1 w2 pw :
  (∀ salt plain candidate,
     verify (hash salt plain) candidate = true ↔ plain = candidate) →
  signup hash dto w = (Ok payload, w1) →
  users w2 = users w1 →
  db_faults w2 = [] →
  let attempt :=
    login hash verify signAsync config_get
          {| login_email := signup_email dto; login_password := pw |} w2 in
  (pw ≠ signup_password dto →
   attempt.1
   = Throw (BadRequestException (Text "Email or password incorrect."))) ∧
  (pw = signup_password dto →
   ∀ a r,
     signAsync (claims_of (next_id w) (signup_email dto) STANDARD)
               (access_options config_get) (now w2) = inr a →
     signAsync (claims_of (next_id w) (signup_email dto) STANDARD)
               (refresh_options config_get) (now w2) = inr r →
     attempt.1 = Ok (payload, {| access_token := a; refresh_token := r |})).
Proof.
  intros Hideal. rewrite signup_run. cbv zeta.
  destruct (faulty w); [intros [=]|].
  destruct (existsb _ _) eqn:Hfree; [intros [=]|].
  intros [= <- <-] Hsame Hup.
  rewrite login_run, (faulty_up w2 Hup), Hsame. simpl.
  rewrite find_email_app by done. simpl. split.
  - intros Hpw. destruct (verify _ pw) eqn:Hv; [|done].
    apply Hideal in Hv. congruence.
  - intros -> a r Ha Hr.
    rewrite (proj2 (Hideal _ _ _) eq_refl).
    pose proof (open_session_ok (next_id w) (signup_email dto) STANDARD
                  (logged (OpFindFirst (signup_email dto)) w2) a r) as Hok.
    destruct (open_session _ _ _ _ _ _ _) as [r' w3]. simpl in Hok.
    rewrite Hok; [done | by rewrite Hup | | done..].
    simpl. rewrite Hsame. simpl.
    apply (find_has_id_elem (new_row hash dto w)
             (users w ++ [new_row hash dto w])%list).
    apply elem_of_app. right. apply list_elem_of_here.
Qed.

(** X13. The three payloads have the same four fields.  The user
    object that a successful signup, login or refresh returns holds the
    id, the email, the name and the role of the row, and nothing else:
    the timestamps are stripped with the password and the
    fingerprint. *)
Theorem payloads_hold_four_fields w :
  (∀ dto payload w',
     signup hash dto w = (Ok payload, w') →
     payload
     = <["id" := VNum (next_id w)]>
         (<["email" := VStr (signup_email dto)]>
            (<["name" := VStr (signup_name dto)]>
               (<["role" := VRole STANDARD]> ∅)))) ∧
  (∀ dto out w',
     login hash verify signAsync config_get dto w = (Ok out, w') →
     ∃ user,
       find (has_email (login_email dto)) (users w) = Some user ∧
       out.1
       = <["id" := VNum (id user)]>
           (<["email" := VStr (email user)]>
              (<["name" := VStr (name user)]>
                 (<["role" := VRole (role user)]> ∅)))) ∧
  (∀ userId rt out w',
     refreshTokens hash verify signAsync config_get userId rt w
     = (Ok out, w') →
     ∃ user,
       find (has_id userId) (users w) = Some user ∧
       out.1
       = <["id" := VNum (id user)]>
           (<["email" := VStr (email user)]>
              (<["name" := VStr (name user)]>
                 (<["role" := VRole (role user)]> ∅)))).
Proof.
  split; [|split].
  - intros dto payload w'. rewrite signup_run. simpl.
    destruct (faulty w); [intros [=]|].
    destruct (existsb _ _); [intros [=]|].
    intros [= <- _]. apply sanitized_fields.
  - intros dto out w' (user & Hfind & _ & ->)%login_ok_inv.
    exists user. split; [done | apply sanitized_fields].
  - intros userId rt out w' Hrun.
    apply refreshTokens_ok_inv in Hrun
      as (user & digest & _ & Hfind & _ & _ & _ & _ & _ & -> & _).
    exists user. split; [done|].
    rewrite selected_is_sanitized. apply sanitized_fields.
Qed.

(** X14. The table stays as the schema wants it.  When the emails and
    the ids of the table are unique and the id sequence is ahead of
    every id, they still are after any of the five operations, whatever
    its outcome. *)
Theorem table_stays_well_formed w :
  well_formed w →
  (∀ dto, well_formed (signup hash dto w).2) ∧
  (∀ dto, well_formed (login hash verify signAsync config_get dto w).2) ∧
  (∀ userId, well_formed (logout userId w).2) ∧
  (∀ userId rt,
     well_formed
       (refreshTokens hash verify signAsync config_get userId rt w).2) ∧
  (∀ req,
     well_formed (googleAuthCallback hash signAsync config_get req w).2).
Proof.
  intros Hwf. repeat apply conj.
  - intros dto.
    destruct (signup_table dto w) as [[Hn Hus]|(Hn & Hus & Hfree)].
    + apply (well_formed_same_identity w); [by rewrite Hus | done..].
    + by apply (well_formed_insert w _ (new_row hash dto w)).
  - intros dto. destruct (login_table dto w) as [Hn [Hus|(i & salt & plain & Hus)]];
      apply (well_formed_same_identity w); try done; rewrite Hus;
      [done | apply identity_written].
  - intros userId. destruct (logout_table userId w) as [Hn [Hus|Hus]];
      apply (well_formed_same_identity w); try done; rewrite Hus;
      [done | apply identity_logged_out].
  - intros userId rt.
    destruct (refreshTokens_table userId rt w) as [Hn [Hus|(salt & plain & Hus)]];
      apply (well_formed_same_identity w); try done; rewrite Hus;
      [done | apply identity_written].
  - intros req.
    destruct (googleAuthCallback_table req w) as [Hn [Hus|(salt & plain & Hus)]];
      apply (well_formed_same_identity w); try done; rewrite Hus;
      [done | apply identity_written].
Qed.

(** X15. A denied refresh does not end the session.  On a reachable
    store, after a refresh that failed with Forbidden the outcome of
    any further refresh of that user is what it would have been
    without the failed attempt: the token that was valid still is. *)
Theorem denied_refresh_keeps_session userId stale rt w m :
  db_faults w = [] →
  (refreshTokens hash verify signAsync config_get userId stale w).1
  = Throw (ForbiddenException m) →
  (refreshTokens hash verify signAsync config_get userId rt
     (refreshTokens hash verify signAsync config_get userId stale w).2).1
  = (refreshTokens hash verify signAsync config_get userId rt w).1.
Proof.
  intros Hup.
  destruct (refreshTokens _ _ _ _ userId stale w) as [r0 w'] eqn:Hrun.
  simpl. intros ->.
  apply refreshTokens_forbidden_inv in Hrun as (_ & _ & -> & _).
  apply refreshTokens_outcome_ext; [done..|].
  simpl. by rewrite Hup.
Qed.

(** X16. The federated callback opens a session as login does.  Under
    a hasher whose digests are not empty and verify their plaintext and
    nothing else, after a successful callback a refresh for that id is
    denied for every token but the one set in the REFRESH_TOKEN cookie,
    and succeeds with that one when the store is reachable and both
    signing calls are fulfilled. *)
Theorem googleAuthCallback_opens_session req w w1 :
  (∀ salt plain candidate,
     verify (hash salt plain) candidate = true ↔ plain = candidate) →
  (∀ salt plain, hash salt plain ≠ "") →
  googleAuthCallback hash signAsync config_get req w = (Ok tt, w1) →
  ∃ a r row,
    find (has_id (auth_id req)) (users w) = Some row ∧
    res w1
    = (res w ++ [Cookie "test" "hola" None;
                 Cookie "ACCESS_TOKEN" a (Some 900000);
                 Cookie "REFRESH_TOKEN" r (Some 604800000)])%list ∧
    (∀ rt w2,
       rt ≠ r → users w2 = users w1 → faulty w2 = None →
       (refreshTokens hash verify signAsync config_get (auth_id req) rt w2).1
       = Throw access_denied) ∧
    (∀ w2 a' r',
       users w2 = users w1 → db_faults w2 = [] →
       signAsync (claims_of (auth_id req) (email row) (role row))
                 (access_options config_get) (now w2) = inr a' →
       signAsync (claims_of (auth_id req) (email row) (role row))
                 (refresh_options config_get) (now w2) = inr r' →
       (refreshTokens hash verify signAsync config_get (auth_id req) r w2).1
       = Ok (sanitized row,
             {| access_token := a'; refresh_token := r' |})).
Proof.
  intros Hideal Hfull. rewrite googleAuthCallback_unfold.
  destruct (signAsync _ (access_options _) _) as [?|a]; [intros [=]|].
  destruct (signAsync _ (refresh_options _) _) as [?|r]; [intros [=]|].
  simpl. destruct (faulty w); [intros [=]|].
  destruct (find _ _) as [row|] eqn:Hrow; intros [= <-].
  simpl.
  assert (Hnew : find (has_id (auth_id req))
                      (written (auth_id req)
                         (set_refreshToken (Some (hash (entropy w) r)))
                         (now w) (users w))
                 = Some (touch (now w)
                           (set_refreshToken (Some (hash (entropy w) r)) row))).
  { rewrite find_written by done. by rewrite Hrow. }
  exists a, r, row. split; [done|]. split; [done|]. split.
  - intros rt w2 Hother Hsame Hup.
    rewrite refreshTokens_denied; [done..|].
    right. eexists. rewrite Hsame. split; [exact Hnew|].
    right. eexists. split; [reflexivity|]. right.
    destruct (verify _ rt) eqn:Hv; [|reflexivity].
    apply Hideal in Hv. congruence.
  - intros w2 a' r' Hsame Hup Ha Hr.
    rewrite <- (sanitized_touch (now w) (Some (hash (entropy w) r)) row).
    apply (refreshTokens_ok _ _ _ _ (hash (entropy w) r)); try done.
    + by rewrite Hsame.
    + by apply Hideal.
Qed.

(** X17. The table holds digests only.  When every password and every
    fingerprint of the table is an output of the hasher, so it is after
    any of the five operations, whatever its outcome: the service
    stores no password and no refresh token in clear. *)
Theorem secrets_are_stored_as_digests w :
  digests_only hash (users w) →
  (∀ dto, digests_only hash (users (signup hash dto w).2)) ∧
  (∀ dto,
     digests_only hash
       (users (login hash verify signAsync config_get dto w).2)) ∧
  (∀ userId, digests_only hash (users (logout userId w).2)) ∧
  (∀ userId rt,
     digests_only hash
       (users (refreshTokens hash verify signAsync config_get userId rt w).2)) ∧
  (∀ req,
     digests_only hash
       (users (googleAuthCallback hash signAsync config_get req w).2)).
Proof.
  intros Hdigests.
  assert (Hwritten : ∀ i salt plain,
            digests_only hash
              (written i (set_refreshToken (Some (hash salt plain))) (now w)
                       (users w))).
  { intros i salt plain. unfold digests_only, written.
    apply Forall_fmap. eapply Forall_impl; [exact Hdigests|].
    intros u [Hpw Hrt]. simpl. destruct (has_id i u); [|done].
    split; [done|]. intros digest [= <-]. eauto. }
  repeat apply conj.
  - intros dto.
    destruct (signup_table dto w) as [[_ ->]|(_ & -> & _)]; [done|].
    apply Forall_app. split; [done|]. apply Forall_singleton.
    split; [simpl; eauto | by intros digest [=]].
  - intros dto.
    by destruct (login_table dto w) as [_ [->|(i & salt & plain & ->)]].
  - intros userId.
    destruct (logout_table userId w) as [_ [->| ->]]; [done|].
    unfold digests_only, logged_out.
    apply Forall_fmap. eapply Forall_impl; [exact Hdigests|].
    intros u [Hpw Hrt]. simpl. destruct (has_session userId u); [|done].
    split; [done | by intros digest [=]].
  - intros userId rt.
    by destruct (refreshTokens_table userId rt w)
      as [_ [->|(salt & plain & ->)]].
  - intros req.
    by destruct (googleAuthCallback_table req w)
      as [_ [->|(salt & plain & ->)]].
Qed.

End Further.

(** ** The further properties at work *)

Lemma users_tick seconds w : users (tick seconds w) = users w.
Proof. reflexivity. Qed.

(** X1 at work: Ann mistypes her password; nothing is written. *)
Lemma failures_leave_no_trace_witness :
  let run :=
    login ideal_hash ideal_verify hs256_signAsync configured wrong_login
          signed_up in
  run.1 = Throw (BadRequestException (Text "Email or password incorrect.")) ∧
  users run.2 = users signed_up ∧
  res run.2 = res signed_up.
Proof.
  intros run.
  assert (Hthrown : run.1 = Throw (BadRequestException
                                     (Text "Email or password incorrect.")))
    by (vm_compute; reflexivity).
  split; [exact Hthrown|].
  apply (proj1 (proj2 (failures_leave_no_trace ideal_hash ideal_verify
                         hs256_signAsync configured signed_up))
           wrong_login
           (BadRequestException (Text "Email or password incorrect."))
           run.2).
  subst run. destruct (login _ _ _ _ _ _) as [r w']. simpl in *.
  by rewrite Hthrown.
Defined.

(** X2 at work: a federated identity that the table does not have,
    and a login while the connection pool times out. *)
Lemma exceptions_thrown_witness :
  let run :=
    googleAuthCallback ideal_hash hs256_signAsync configured stranger_request
                       logged_in in
  let attempt :=
    login ideal_hash ideal_verify hs256_signAsync configured ann_login
          pool_timeout in
  run.1 = Throw (PrismaClientKnownRequestError "P2025") ∧
  (PrismaClientKnownRequestError "P2025"
   = PrismaClientKnownRequestError "P2025" ∧
   find (has_id 7) (users logged_in) = None ∨
   (∃ f, PrismaClientKnownRequestError "P2025" = rejection f) ∧
   PrismaClientKnownRequestError "P2025"
   ≠ PrismaClientKnownRequestError "P2025") ∧
  attempt.1 = Throw (PrismaClientKnownRequestError "P2024") ∧
  ((PrismaClientKnownRequestError "P2024"
    = UnauthorizedException (Text "Email or password incorrect.") ∨
    PrismaClientKnownRequestError "P2024"
    = BadRequestException (Text "Email or password incorrect.") ∨
    ∃ f, PrismaClientKnownRequestError "P2024" = rejection f) ∧
   PrismaClientKnownRequestError "P2024"
   ≠ PrismaClientKnownRequestError "P2025").
Proof.
  intros run attempt.
  assert (Hthrown : run.1 = Throw (PrismaClientKnownRequestError "P2025"))
    by (vm_compute; reflexivity).
  assert (Htimeout :
            attempt.1 = Throw (PrismaClientKnownRequestError "P2024"))
    by (vm_compute; reflexivity).
  split; [exact Hthrown|]. split; [|split; [exact Htimeout|]].
  - exact (proj2 (proj2 (proj2 (exceptions_thrown ideal_hash ideal_verify
                                  hs256_signAsync configured logged_in)))
             stranger_request (PrismaClientKnownRequestError "P2025")
             Hthrown).
  - exact (proj1 (proj2 (exceptions_thrown ideal_hash ideal_verify
                           hs256_signAsync configured pool_timeout))
             ann_login (PrismaClientKnownRequestError "P2024") Htimeout).
Defined.

(** X3 at work: Ann logs in with the right password. *)
Lemma login_succeeds_iff_witness :
  let out := (sanitized ann, {| access_token := A1; refresh_token := T1 |}) in
  db_faults signed_up = [] ∧
  (login ideal_hash ideal_verify hs256_signAsync configured ann_login
         signed_up).1 = Ok out ∧
  ∃ user,
    find (has_email "a@x.com") (users signed_up) = Some user ∧
    ideal_verify (password user) "pw1" = true ∧
    out.1 = sanitized user ∧
    hs256_signAsync (claims_of (id user) (email user) (role user))
                    (access_options configured) (now signed_up)
    = inr A1 ∧
    hs256_signAsync (claims_of (id user) (email user) (role user))
                    (refresh_options configured) (now signed_up)
    = inr T1.
Proof.
  intros out.
  assert (Hup : db_faults signed_up = []) by (vm_compute; reflexivity).
  assert (Hok : (login ideal_hash ideal_verify hs256_signAsync configured
                       ann_login signed_up).1 = Ok out)
    by (vm_compute; reflexivity).
  split; [exact Hup|]. split; [exact Hok|].
  exact (proj1 (login_succeeds_iff ideal_hash ideal_verify hs256_signAsync
                  configured ann_login signed_up out Hup) Hok).
Defined.

(** X4 at work: Ann refreshes a second after she logged in. *)
Lemma refresh_succeeds_iff_witness :
  let out := (sanitized ann, {| access_token := A2; refresh_token := T2 |}) in
  let w := tick 1 logged_in in
  db_faults w = [] ∧
  (refreshTokens ideal_hash ideal_verify hs256_signAsync configured 1 T1
                 w).1 = Ok out ∧
  ∃ user digest,
    find (has_id 1) (users w) = Some user ∧
    refreshToken user = Some digest ∧
    digest ≠ "" ∧
    ideal_verify digest T1 = true ∧
    out.1 = sanitized user ∧
    hs256_signAsync (claims_of 1 (email user) (role user))
                    (access_options configured) (now w) = inr A2 ∧
    hs256_signAsync (claims_of 1 (email user) (role user))
                    (refresh_options configured) (now w) = inr T2.
Proof.
  intros out w.
  assert (Hup : db_faults w = []) by (vm_compute; reflexivity).
  assert (Hok : (refreshTokens ideal_hash ideal_verify hs256_signAsync
                               configured 1 T1 w).1 = Ok out)
    by (vm_compute; reflexivity).
  split; [exact Hup|]. split; [exact Hok|].
  exact (proj1 (refresh_succeeds_iff ideal_hash ideal_verify hs256_signAsync
                  configured 1 T1 w out Hup) Hok).
Defined.

(** X5 at work: what Ann's login stores and delivers. *)
Lemma session_is_stored_and_delivered_witness :
  let run :=
    login ideal_hash ideal_verify hs256_signAsync configured ann_login
          signed_up in
  issued run.1 = Some T1 ∧
  find (has_id 1) (users run.2) = Some ann_logged_in ∧
  res run.2
  = [Cookie "ACCESS_TOKEN" A1 (Some 900000);
     Cookie "REFRESH_TOKEN" T1 (Some 604800000)] ∧
  ∃ out user,
    run = (Ok out, run.2) ∧
    find (has_email "a@x.com") (users signed_up) = Some user ∧
    users run.2
    = map (λ u, if has_id (id user) u
                then touch (now signed_up)
                       (set_refreshToken
                          (Some (ideal_hash (entropy signed_up)
                                            (refresh_token out.2))) u)
                else u) (users signed_up) ∧
    res run.2
    = (res signed_up
       ++ [Cookie "ACCESS_TOKEN" (access_token out.2) (Some 900000);
           Cookie "REFRESH_TOKEN" (refresh_token out.2)
                  (Some 604800000)])%list.
Proof.
  intros run.
  assert (Hissued : issued run.1 = Some T1) by (vm_compute; reflexivity).
  split; [exact Hissued|].
  split; [vm_compute; reflexivity|]. split; [vm_compute; reflexivity|].
  destruct run as [[out|e] w1] eqn:Hrun; [|discriminate Hissued].
  destruct (proj1 (session_is_stored_and_delivered ideal_hash ideal_verify
                     hs256_signAsync configured signed_up)
              ann_login out w1 Hrun) as (user & Hfind & Husers & Hres).
  exists out, user. by repeat split.
Defined.

(** X6 at work: Ann logs in; only T1 opens her session. *)
Lemma login_rotates_fingerprint_witness :
  let run :=
    login ideal_hash ideal_verify hs256_signAsync configured ann_login
          signed_up in
  (∀ salt plain candidate,
     ideal_verify (ideal_hash salt plain) candidate = true ↔
     plain = candidate) ∧
  issued run.1 = Some T1 ∧
  "stale" ≠ T1 ∧
  faulty run.2 = None ∧
  ∃ user,
    find (has_email "a@x.com") (users signed_up) = Some user ∧
    (∃ row digest,
       find (has_id (id user)) (users run.2) = Some row ∧
       refreshToken row = Some digest ∧
       ∀ candidate, ideal_verify digest candidate = true ↔ candidate = T1) ∧
    (refreshTokens ideal_hash ideal_verify hs256_signAsync configured
                   (id user) "stale" run.2).1 = Throw access_denied.
Proof.
  intros run.
  assert (Hissued : issued run.1 = Some T1) by (vm_compute; reflexivity).
  assert (Hother : "stale" ≠ T1) by (vm_compute; discriminate).
  assert (Hup : faulty run.2 = None) by (vm_compute; reflexivity).
  split; [exact ideal_verify_hash|]. split; [exact Hissued|].
  split; [exact Hother|]. split; [exact Hup|].
  destruct run as [[out|e] w1] eqn:Hrun; [|discriminate Hissued].
  injection Hissued as Hout.
  destruct (login_rotates_fingerprint ideal_hash ideal_verify hs256_signAsync
              configured ann_login signed_up out w1 ideal_verify_hash Hrun)
    as (user & Hfind & Hstored & Hdenied).
  rewrite Hout in Hstored, Hdenied.
  exists user. split; [exact Hfind|]. split; [exact Hstored|].
  exact (Hdenied "stale" w1 Hother eq_refl Hup).
Defined.

(** X7 at work: Ann refreshes with T1, and a second later with the
    token she was handed. *)
Lemma issued_token_is_accepted_witness :
  let refresh :=
    refreshTokens ideal_hash ideal_verify hs256_signAsync configured in
  let w := tick 1 logged_in in
  let run := refresh 1 T1 w in
  let out := (sanitized ann, {| access_token := A2; refresh_token := T2 |}) in
  let w2 := tick 1 run.2 in
  (∀ salt plain, ideal_verify (ideal_hash salt plain) plain = true) ∧
  (∀ salt plain, ideal_hash salt plain ≠ "") ∧
  run = (Ok out, run.2) ∧
  find (has_id 1) (users w) = Some ann_logged_in ∧
  db_faults w2 = [] ∧
  hs256_signAsync (claims_of 1 "a@x.com" STANDARD)
                  (access_options configured) (now w2) = inr A3 ∧
  hs256_signAsync (claims_of 1 "a@x.com" STANDARD)
                  (refresh_options configured) (now w2) = inr T4 ∧
  (refresh 1 T2 w2).1
  = Ok (sanitized ann, {| access_token := A3; refresh_token := T4 |}).
Proof.
  intros refresh w run out w2.
  assert (Hverify : ∀ salt plain,
            ideal_verify (ideal_hash salt plain) plain = true)
    by (intros; by apply ideal_verify_hash).
  assert (Hfull : ∀ salt plain, ideal_hash salt plain ≠ "") by done.
  assert (Hrun : run = (Ok out, run.2)) by (vm_compute; reflexivity).
  assert (Hfind : find (has_id 1) (users w) = Some ann_logged_in)
    by (vm_compute; reflexivity).
  assert (Hup : db_faults w2 = []) by (vm_compute; reflexivity).
  assert (Ha : hs256_signAsync (claims_of 1 (email ann_logged_in)
                                          (role ann_logged_in))
                 (access_options configured) (now w2) = inr A3)
    by (vm_compute; reflexivity).
  assert (Hr : hs256_signAsync (claims_of 1 (email ann_logged_in)
                                          (role ann_logged_in))
                 (refresh_options configured) (now w2) = inr T4)
    by (vm_compute; reflexivity).
  split; [exact Hverify|]. split; [exact Hfull|]. split; [exact Hrun|].
  split; [exact Hfind|]. split; [exact Hup|].
  split; [exact Ha|]. split; [exact Hr|].
  exact (issued_token_is_accepted ideal_hash ideal_verify hs256_signAsync
           configured 1 T1 w out run.2 ann_logged_in w2 A3 T4
           Hverify Hfull Hrun Hfind (users_tick 1 run.2) Hup Ha Hr).
Defined.

(** X9 at work: Ann logs out, or refreshes; Cy's token still opens his
    session. *)
Lemma sessions_are_independent_witness :
  let refresh :=
    refreshTokens ideal_hash ideal_verify hs256_signAsync configured in
  1 ≠ 2 ∧
  db_faults two_sessions = [] ∧
  succeeded (refresh 2 T3 two_sessions).1 = true ∧
  (refresh 2 T3 (logout 1 two_sessions).2).1
  = (refresh 2 T3 two_sessions).1 ∧
  (refresh 2 T3 (refresh 1 T1 two_sessions).2).1
  = (refresh 2 T3 two_sessions).1.
Proof.
  intros refresh.
  assert (Hne : 1 ≠ 2) by done.
  assert (Hup : db_faults two_sessions = []) by (vm_compute; reflexivity).
  split; [exact Hne|]. split; [exact Hup|].
  split; [vm_compute; reflexivity|].
  destruct (sessions_are_independent ideal_hash ideal_verify hs256_signAsync
              configured 1 2 T3 two_sessions Hne Hup) as [Hlogout Hrefresh].
  split; [exact Hlogout | exact (Hrefresh T1)].
Defined.

(** X10 at work: the federated callback for Ann, and for an identity
    that the table does not have. *)
Lemma googleAuthCallback_outcomes_witness :
  let callback := googleAuthCallback ideal_hash hs256_signAsync configured in
  faulty signed_up = None ∧
  hs256_signAsync (claims_of 1 "a@x.com" STANDARD)
                  (access_options configured) (now signed_up) = inr A1 ∧
  hs256_signAsync (claims_of 1 "a@x.com" STANDARD)
                  (refresh_options configured) (now signed_up) = inr T1 ∧
  is_Some (find (has_id 1) (users signed_up)) ∧
  (callback ann_request signed_up).1 = Ok tt ∧
  res (callback ann_request signed_up).2
  = [Cookie "test" "hola" None;
     Cookie "ACCESS_TOKEN" A1 (Some 900000);
     Cookie "REFRESH_TOKEN" T1 (Some 604800000)] ∧
  find (has_id 7) (users signed_up) = None ∧
  (callback stranger_request signed_up).1
  = Throw (PrismaClientKnownRequestError "P2025") ∧
  res (callback stranger_request signed_up).2 = [].
Proof.
  intros callback.
  assert (Hup : faulty signed_up = None) by (vm_compute; reflexivity).
  assert (Ha : hs256_signAsync (claims_of 1 "a@x.com" STANDARD)
                 (access_options configured) (now signed_up) = inr A1)
    by (vm_compute; reflexivity).
  assert (Hr : hs256_signAsync (claims_of 1 "a@x.com" STANDARD)
                 (refresh_options configured) (now signed_up) = inr T1)
    by (vm_compute; reflexivity).
  assert (Hsome : is_Some (find (has_id 1) (users signed_up)))
    by (exists ann; vm_compute; reflexivity).
  assert (Hnone : find (has_id 7) (users signed_up) = None)
    by (vm_compute; reflexivity).
  split; [exact Hup|]. split; [exact Ha|]. split; [exact Hr|].
  split; [exact Hsome|].
  destruct (proj1 (googleAuthCallback_outcomes ideal_hash hs256_signAsync
                     configured ann_request signed_up A1 T1 Hup Ha Hr) Hsome)
    as (Hok & _ & Hres).
  split; [exact Hok|]. split; [exact Hres|]. split; [exact Hnone|].
  assert (Ha' : hs256_signAsync (claims_of 7 "s@x.com" STANDARD)
                  (access_options configured) (now signed_up)
                = inr ("sub=7;role=STANDARD;email=s@x.com;iat=1700000000"
                       +:+ ";expiresIn=15m;key=access-secret"))
    by (vm_compute; reflexivity).
  assert (Hr' : hs256_signAsync (claims_of 7 "s@x.com" STANDARD)
                  (refresh_options configured) (now signed_up)
                = inr ("sub=7;role=STANDARD;email=s@x.com;iat=1700000000"
                       +:+ ";expiresIn=7d;key=refresh-secret"))
    by (vm_compute; reflexivity).
  destruct (proj2 (googleAuthCallback_outcomes ideal_hash hs256_signAsync
                     configured stranger_request signed_up _ _ Hup
                     Ha' Hr') Hnone)
    as (Hthrown & _ & Hres' & _).
  split; [exact Hthrown | exact Hres'].
Defined.

(** X11 at work: Ann signs up in the empty table. *)
Lemma signup_creates_user_witness :
  let run := signup ideal_hash ann_signup empty_world in
  faulty empty_world = None ∧
  existsb (has_email "a@x.com") (users empty_world) = false ∧
  run.1 = Ok (sanitized ann) ∧
  users run.2 = [ann] ∧
  next_id run.2 = 2 ∧
  jwt_calls run.2 = 0%nat ∧
  res run.2 = [] ∧
  (refreshTokens ideal_hash ideal_verify hs256_signAsync configured
                 1 T1 run.2).1 = Throw access_denied.
Proof.
  intros run.
  assert (Hup : faulty empty_world = None) by reflexivity.
  assert (Hfree : existsb (has_email "a@x.com") (users empty_world) = false)
    by reflexivity.
  split; [exact Hup|]. split; [exact Hfree|].
  destruct (signup_creates_user ideal_hash ideal_verify hs256_signAsync
              configured ann_signup empty_world Hup Hfree)
    as (Hok & Husers & Hnext & Hjwt & Hres & Hdenied).
  split; [exact Hok|]. split; [exact Husers|]. split; [exact Hnext|].
  split; [exact Hjwt|]. split; [exact Hres|].
  apply (Hdenied (List.Forall_nil _)). vm_compute; reflexivity.
Defined.

(** X12 at work: Ann signs up, then logs in with her password, and with
    another. *)
Lemma signup_then_login_witness :
  let login := login ideal_hash ideal_verify hs256_signAsync configured in
  (∀ salt plain candidate,
     ideal_verify (ideal_hash salt plain) candidate = true ↔
     plain = candidate) ∧
  signup ideal_hash ann_signup empty_world = (Ok (sanitized ann), signed_up) ∧
  db_faults signed_up = [] ∧
  "wrong" ≠ "pw1" ∧
  (login wrong_login signed_up).1
  = Throw (BadRequestException (Text "Email or password incorrect.")) ∧
  (login ann_login signed_up).1
  = Ok (sanitized ann, {| access_token := A1; refresh_token := T1 |}).
Proof.
  intros login.
  assert (Hsignup : signup ideal_hash ann_signup empty_world
                    = (Ok (sanitized ann), signed_up))
    by (vm_compute; reflexivity).
  assert (Hup : db_faults signed_up = []) by (vm_compute; reflexivity).
  assert (Hwrong : "wrong" ≠ "pw1") by done.
  assert (Ha : hs256_signAsync
                 (claims_of (next_id empty_world) (signup_email ann_signup)
                            STANDARD)
                 (access_options configured) (now signed_up) = inr A1)
    by (vm_compute; reflexivity).
  assert (Hr : hs256_signAsync
                 (claims_of (next_id empty_world) (signup_email ann_signup)
                            STANDARD)
                 (refresh_options configured) (now signed_up) = inr T1)
    by (vm_compute; reflexivity).
  split; [exact ideal_verify_hash|]. split; [exact Hsignup|].
  split; [exact Hup|]. split; [exact Hwrong|]. split.
  - exact (proj1 (signup_then_login ideal_hash ideal_verify hs256_signAsync
                    configured ann_signup empty_world (sanitized ann)
                    signed_up signed_up "wrong"
                    ideal_verify_hash Hsignup eq_refl Hup) Hwrong).
  - exact (proj2 (signup_then_login ideal_hash ideal_verify hs256_signAsync
                    configured ann_signup empty_world (sanitized ann)
                    signed_up signed_up "pw1"
                    ideal_verify_hash Hsignup eq_refl Hup) eq_refl
             A1 T1 Ha Hr).
Defined.

(** X13 at work: the payload of Ann's signup. *)
Lemma payloads_hold_four_fields_witness :
  signup ideal_hash ann_signup empty_world = (Ok (sanitized ann), signed_up) ∧
  sanitized ann
  = <["id" := VNum 1]>
      (<["email" := VStr "a@x.com"]>
         (<["name" := VStr "Ann"]>
            (<["role" := VRole STANDARD]> ∅))).
Proof.
  assert (Hsignup : signup ideal_hash ann_signup empty_world
                    = (Ok (sanitized ann), signed_up))
    by (vm_compute; reflexivity).
  split; [exact Hsignup|].
  exact (proj1 (payloads_hold_four_fields ideal_hash ideal_verify
                  hs256_signAsync configured empty_world)
           ann_signup (sanitized ann) signed_up Hsignup).
Defined.

(** X14 at work: the table with Ann and Cy is well formed, and stays so
    when Bob tries to sign up with Ann's email and when Cy logs out. *)
Lemma table_stays_well_formed_witness :
  well_formed two_sessions ∧
  well_formed (signup ideal_hash bob_signup two_sessions).2 ∧
  well_formed (logout 2 two_sessions).2.
Proof.
  assert (Hwf : well_formed two_sessions).
  { assert (Husers : users two_sessions = [ann_logged_in; cy_logged_in])
      by (vm_compute; reflexivity).
    assert (Hnext : next_id two_sessions = 3) by (vm_compute; reflexivity).
    unfold well_formed. rewrite Husers, Hnext.
    split; [compute_done|]. split; [compute_done|].
    apply Forall_cons. split; [done | by apply Forall_singleton]. }
  split; [exact Hwf|].
  destruct (table_stays_well_formed ideal_hash ideal_verify hs256_signAsync
              configured two_sessions Hwf)
    as (Hsignup & _ & Hlogout & _).
  split; [exact (Hsignup bob_signup) | exact (Hlogout 2)].
Defined.

(** X15 at work: a stale token is presented for Ann; T1 still opens her
    session. *)
Lemma denied_refresh_keeps_session_witness :
  let refresh :=
    refreshTokens ideal_hash ideal_verify hs256_signAsync configured in
  db_faults logged_in = [] ∧
  (refresh 1 "stale" logged_in).1
  = Throw (ForbiddenException (Text "Access Denied.")) ∧
  succeeded (refresh 1 T1 logged_in).1 = true ∧
  (refresh 1 T1 (refresh 1 "stale" logged_in).2).1
  = (refresh 1 T1 logged_in).1.
Proof.
  intros refresh.
  assert (Hup : db_faults logged_in = []) by (vm_compute; reflexivity).
  assert (Hdenied : (refresh 1 "stale" logged_in).1
                    = Throw (ForbiddenException (Text "Access Denied.")))
    by (vm_compute; reflexivity).
  split; [exact Hup|]. split; [exact Hdenied|].
  split; [vm_compute; reflexivity|].
  exact (denied_refresh_keeps_session ideal_hash ideal_verify hs256_signAsync
           configured 1 "stale" T1 logged_in (Text "Access Denied.")
           Hup Hdenied).
Defined.

(** X16 at work: the federated callback for Ann; the cookie opens her
    session and a stale token does not. *)
Lemma googleAuthCallback_opens_session_witness :
  let callback := googleAuthCallback ideal_hash hs256_signAsync configured in
  let refresh :=
    refreshTokens ideal_hash ideal_verify hs256_signAsync configured in
  let run := callback ann_request signed_up in
  (∀ salt plain candidate,
     ideal_verify (ideal_hash salt plain) candidate = true ↔
     plain = candidate) ∧
  (∀ salt plain, ideal_hash salt plain ≠ "") ∧
  run = (Ok tt, run.2) ∧
  res run.2
  = [Cookie "test" "hola" None;
     Cookie "ACCESS_TOKEN" A1 (Some 900000);
     Cookie "REFRESH_TOKEN" T1 (Some 604800000)] ∧
  (refresh 1 "stale" run.2).1 = Throw access_denied ∧
  (refresh 1 T1 (tick 1 run.2)).1
  = Ok (sanitized ann, {| access_token := A2; refresh_token := T2 |}).
Proof.
  intros callback refresh run.
  assert (Hfull : ∀ salt plain, ideal_hash salt plain ≠ "") by done.
  assert (Hrun : run = (Ok tt, run.2)) by (vm_compute; reflexivity).
  assert (Hres : res run.2
                 = [Cookie "test" "hola" None;
                    Cookie "ACCESS_TOKEN" A1 (Some 900000);
                    Cookie "REFRESH_TOKEN" T1 (Some 604800000)])
    by (vm_compute; reflexivity).
  assert (Hrow : find (has_id 1) (users signed_up) = Some ann)
    by (vm_compute; reflexivity).
  assert (Hup : faulty run.2 = None) by (vm_compute; reflexivity).
  assert (Hup' : db_faults (tick 1 run.2) = []) by (vm_compute; reflexivity).
  assert (Ha : hs256_signAsync (claims_of 1 (email ann) (role ann))
                 (access_options configured) (now (tick 1 run.2)) = inr A2)
    by (vm_compute; reflexivity).
  assert (Hr : hs256_signAsync (claims_of 1 (email ann) (role ann))
                 (refresh_options configured) (now (tick 1 run.2)) = inr T2)
    by (vm_compute; reflexivity).
  split; [exact ideal_verify_hash|]. split; [exact Hfull|].
  split; [exact Hrun|]. split; [exact Hres|].
  destruct (googleAuthCallback_opens_session ideal_hash ideal_verify
              hs256_signAsync configured ann_request signed_up run.2
              ideal_verify_hash Hfull Hrun)
    as (a & r & row & Hrow' & Hres' & Hdenied & Haccepted).
  change (auth_id ann_request) with 1 in Hrow'.
  assert (row = ann) as -> by congruence.
  assert (r = T1) as ->.
  { rewrite Hres in Hres'. simpl in Hres'. by injection Hres'. }
  assert (Hstale : "stale" ≠ T1) by (vm_compute; discriminate).
  split.
  - exact (Hdenied "stale" run.2 Hstale eq_refl Hup).
  - exact (Haccepted (tick 1 run.2) A2 T2 (users_tick 1 run.2) Hup' Ha Hr).
Defined.

(** X17 at work: the table with Ann and Cy holds digests only, also
    after Ann refreshes. *)
Lemma secrets_are_stored_as_digests_witness :
  digests_only ideal_hash (users two_sessions) ∧
  digests_only ideal_hash
    (users (refreshTokens ideal_hash ideal_verify hs256_signAsync configured
                          1 T1 two_sessions).2).
Proof.
  assert (Hdigests : digests_only ideal_hash (users two_sessions)).
  { assert (Husers : users two_sessions = [ann_logged_in; cy_logged_in])
      by (vm_compute; reflexivity).
    unfold digests_only. rewrite Husers.
    apply Forall_cons. split; [|apply Forall_singleton].
    - split; [by exists 0%nat, "pw1"|].
      intros digest [= <-]. by exists 1%nat, T1.
    - split; [by exists 2%nat, "pw3"|].
      intros digest [= <-]. by exists 3%nat, T3. }
  split; [exact Hdigests|].
  exact (proj1 (proj2 (proj2 (proj2 (secrets_are_stored_as_digests
                                       ideal_hash ideal_verify hs256_signAsync
                                       configured two_sessions Hdigests))))
           1 T1).
Defined.

(** ** The payment service *)

Lemma book_update_lookup i q bs bs' b :
  book_update i q bs = Some bs' →
  bs' !! b
  = (λ stock, if bool_decide (i = b) then stock - q else stock) <$> bs !! b.
Proof.
  unfold book_update. destruct (bs !! i) as [stock|] eqn:Hi; [|done].
  intros [= <-]. case_bool_decide as Hb.
  - subst b. by rewrite lookup_insert_eq, Hi.
  - rewrite lookup_insert_ne by done. by destruct (bs !! b).
Qed.

Lemma book_update_is_Some i q bs :
  is_Some (book_update i q bs) ↔ is_Some (bs !! i).
Proof.
  unfold book_update. destruct (bs !! i); split; intros [? ?]; by eauto.
Qed.

Lemma updateStock_lookup its : ∀ bs bs' b,
  updateStock its bs = Some bs' →
  bs' !! b = (λ stock, stock - ordered b its) <$> bs !! b.
Proof.
  induction its as [|it its IH]; intros bs bs' b; simpl.
  - intros [= <-]. destruct (bs !! b); simpl; [f_equal; lia | done].
  - destruct (book_update _ _ bs) as [bs1|] eqn:H1; [|done].
    intros H. rewrite (IH _ _ b H), (book_update_lookup _ _ _ _ b H1).
    destruct (bs !! b); simpl; [|done].
    f_equal. case_bool_decide; lia.
Qed.

Lemma updateStock_is_Some its : ∀ bs,
  is_Some (updateStock its bs) ↔ in_catalogue bs its.
Proof.
  unfold in_catalogue.
  induction its as [|it its IH]; intros bs; simpl.
  - split; [constructor | by eauto].
  - rewrite Forall_cons. destruct (book_update _ _ bs) as [bs1|] eqn:H1.
    + rewrite IH. split.
      * intros H. split.
        { apply (proj1 (book_update_is_Some _ (item_quantity it) _)).
          rewrite H1. by eauto. }
        eapply Forall_impl; [exact H|]. intros x. simpl.
        rewrite (book_update_lookup _ _ _ _ (item_id x) H1).
        by rewrite fmap_is_Some.
      * intros [_ H]. eapply Forall_impl; [exact H|]. intros x. simpl.
        rewrite (book_update_lookup _ _ _ _ (item_id x) H1).
        by rewrite fmap_is_Some.
    + split; [by intros [? ?]|]. intros [H _].
      apply (proj2 (book_update_is_Some _ (item_quantity it) _)) in H.
      rewrite H1 in H. by destruct H.
Qed.

Section Payments.

Variable config_get : string → option string.
Variable preferences : gmap string Json.
Variable fetch : Request → Fetched.
Variable fetch_payment : Request → PaymentFetched.
Variable parseInt : string → option Z.
Variable accepts : Order → bool.

Lemma createOrderAfterPayment_ok_inv paymentId shop shop' :
  createOrderAfterPayment config_get fetch_payment parseInt accepts
    paymentId shop = (Done tt, shop') →
  ∃ p bs,
    fetch_payment (payment_request config_get paymentId) = IsPayment p
    ∧ updateStock (items p) (books shop) = Some bs
    ∧ accepts (createOrder parseInt p) = true
    ∧ shop' = {| books := bs;
                 orders := (orders shop ++ [createOrder parseInt p])%list |}.
Proof.
  unfold createOrderAfterPayment, transaction.
  change (fetch_payment _) with
    (fetch_payment (payment_request config_get paymentId)).
  destruct (fetch_payment _) as [| |p] eqn:Hf; [done|done|].
  destruct (updateStock _ _) as [bs|] eqn:Hu; [|done].
  destruct (accepts _) eqn:Ha; [|done].
  intros [= <-]. by exists p, bs.
Qed.

Lemma createOrderAfterPayment_ok paymentId shop p bs :
  fetch_payment (payment_request config_get paymentId) = IsPayment p →
  updateStock (items p) (books shop) = Some bs →
  accepts (createOrder parseInt p) = true →
  createOrderAfterPayment config_get fetch_payment parseInt accepts
    paymentId shop
  = (Done tt, {| books := bs;
                 orders := (orders shop ++ [createOrder parseInt p])%list |}).
Proof.
  intros Hf Hu Ha. unfold createOrderAfterPayment, transaction.
  change (fetch_payment _) with
    (fetch_payment (payment_request config_get paymentId)).
  by rewrite Hf, Hu, Ha.
Qed.

Lemma createOrderAfterPayment_cases paymentId shop :
  (∃ shop',
     createOrderAfterPayment config_get fetch_payment parseInt accepts
       paymentId shop = (Done tt, shop'))
  ∨ createOrderAfterPayment config_get fetch_payment parseInt accepts
      paymentId shop
    = (Failed (InternalServerErrorException "Internal Server Error"), shop).
Proof.
  unfold createOrderAfterPayment.
  destruct (fetch_payment _) as [| |p]; [by right|by right|].
  destruct (transaction _ _ _ _); [left; by eauto | by right].
Qed.

Lemma preference_body_lookup dto uid k :
  k ≠ "metadata" →
  property k (preference_body preferences dto uid)
  = match preferences !! k with Some v => Some v | None => dto !! k end.
Proof.
  intros Hk. unfold preference_body. simpl.
  rewrite lookup_insert_ne by done. rewrite lookup_union.
  destruct (preferences !! k), (dto !! k); done.
Qed.

Lemma preference_body_ext dto dto' uid :
  dto !! "shippingAddress" = dto' !! "shippingAddress" →
  (∀ k, k ≠ "metadata" → preferences !! k = None → dto !! k = dto' !! k) →
  preference_body preferences dto uid = preference_body preferences dto' uid.
Proof.
  intros Hs Hk. unfold preference_body. rewrite Hs. f_equal.
  apply map_eq. intros k.
  destruct (decide (k = "metadata")) as [->|Hm].
  - by rewrite !lookup_insert_eq.
  - rewrite !lookup_insert_ne by done. rewrite !lookup_union.
    destruct (preferences !! k) eqn:Hp.
    + by destruct (dto !! k), (dto' !! k).
    + by rewrite (Hk k Hm Hp).
Qed.

Lemma createPayment_request dto uid :
  createPayment config_get preferences fetch dto uid
  = match fetch (preference_request config_get preferences dto uid) with
    | Parsed JNull =>
        Failed (InternalServerErrorException "Internal Server Error")
    | Parsed j => Done (property "init_point" j)
    | Rejected =>
        Failed (InternalServerErrorException "Internal Server Error")
    end.
Proof. reflexivity. Qed.

Local Abbreviation createPayment :=
  (createPayment config_get preferences fetch).
Local Abbreviation createOrderAfterPayment :=
  (createOrderAfterPayment config_get fetch_payment parseInt accepts).
Local Abbreviation createOrder := (createOrder parseInt).
Local Abbreviation preference_body := (preference_body preferences).

(** X18.  An order that is created takes its items out of the stock:
    the order of the payment is appended to the orders, and the stock
    of every book goes down by the quantity that the items of the
    payment order of it, all items of the same book counted. *)
Theorem order_takes_stock paymentId shop shop' :
  createOrderAfterPayment paymentId shop = (Done tt, shop') →
  ∃ p,
    fetch_payment (payment_request config_get paymentId) = IsPayment p
    ∧ orders shop' = (orders shop ++ [createOrder p])%list
    ∧ ∀ b, books shop' !! b
           = (λ stock, stock - ordered b (items p)) <$> books shop !! b.
Proof.
  intros (p & bs & Hf & Hu & _ & ->)%createOrderAfterPayment_ok_inv.
  exists p. split; [done|]. split; [done|].
  intros b. simpl. by apply updateStock_lookup.
Qed.

(** X19.  [createOrderAfterPayment] creates the order exactly when the
    gateway answers with a payment, every item names a book of the
    catalogue and the order table takes the order.  In every other case
    it throws InternalServerErrorException('Internal Server Error') and
    leaves stock and orders as they were: the decrements of the items
    before a missing book are not kept. *)
Theorem order_created_iff paymentId shop :
  ((createOrderAfterPayment paymentId shop).1 = Done tt
   ↔ ∃ p, fetch_payment (payment_request config_get paymentId) = IsPayment p
          ∧ in_catalogue (books shop) (items p)
          ∧ accepts (createOrder p) = true)
  ∧ ((createOrderAfterPayment paymentId shop).1 ≠ Done tt →
     createOrderAfterPayment paymentId shop
     = (Failed (InternalServerErrorException "Internal Server Error"), shop)).
Proof.
  split; [split|].
  - destruct (createOrderAfterPayment paymentId shop) as [out shop'] eqn:Hrun.
    simpl. intros ->.
    apply createOrderAfterPayment_ok_inv in Hrun
      as (p & bs & Hf & Hu & Ha & _).
    exists p. split; [done|]. split; [|done].
    apply updateStock_is_Some. by eauto.
  - intros (p & Hf & [bs Hu]%updateStock_is_Some & Ha).
    by rewrite (createOrderAfterPayment_ok _ _ _ _ Hf Hu Ha).
  - destruct (createOrderAfterPayment_cases paymentId shop) as [[s' H]|H];
      [|done].
    rewrite H. simpl. by intros [].
Qed.

(** X20.  Nothing records that a payment was turned into an order: when
    the service is run again for the same payment, on the shop that the
    first run leaves, it succeeds again, the order is there twice and
    the stock has gone down twice. *)
Theorem order_is_created_again paymentId shop shop1 :
  createOrderAfterPayment paymentId shop = (Done tt, shop1) →
  ∃ p shop2,
    fetch_payment (payment_request config_get paymentId) = IsPayment p
    ∧ createOrderAfterPayment paymentId shop1 = (Done tt, shop2)
    ∧ orders shop2
      = (orders shop ++ [createOrder p; createOrder p])%list
    ∧ ∀ b, books shop2 !! b
           = (λ stock, stock - 2 * ordered b (items p)) <$> books shop !! b.
Proof.
  intros (p & bs & Hf & Hu & Ha & ->)%createOrderAfterPayment_ok_inv.
  assert (is_Some (updateStock (items p) bs)) as [bs2 Hu2].
  { apply updateStock_is_Some.
    assert (in_catalogue (books shop) (items p)) as Hc
      by (apply updateStock_is_Some; by eauto).
    eapply Forall_impl; [exact Hc|]. intros it. simpl.
    rewrite (updateStock_lookup _ _ _ (item_id it) Hu).
    by rewrite fmap_is_Some. }
  exists p, {| books := bs2;
               orders := ((orders shop ++ [createOrder p])
                          ++ [createOrder p])%list |}.
  split; [done|]. split; [by apply createOrderAfterPayment_ok|].
  split; [simpl; by rewrite <- app_assoc|].
  intros b. simpl.
  rewrite (updateStock_lookup _ _ _ b Hu2), (updateStock_lookup _ _ _ b Hu).
  destruct (books shop !! b); simpl; [f_equal; lia | done].
Qed.

(** X21.  What the input of [createPayment] holds under [metadata], or
    under a key that [preferences] sets, does not reach the gateway:
    two inputs that agree on the shipping address and on every other
    key are sent as the same request and so have the same outcome. *)
Theorem createPayment_ignores_overridden_input dto dto' uid :
  dto !! "shippingAddress" = dto' !! "shippingAddress" →
  (∀ k, k ≠ "metadata" → preferences !! k = None → dto !! k = dto' !! k) →
  preference_request config_get preferences dto uid
  = preference_request config_get preferences dto' uid
  ∧ createPayment dto uid = createPayment dto' uid.
Proof.
  intros Hs Hk.
  assert (preference_request config_get preferences dto uid
          = preference_request config_get preferences dto' uid) as Hr.
  { unfold preference_request. by rewrite (preference_body_ext _ _ _ Hs Hk). }
  split; [done|]. by rewrite !createPayment_request, Hr.
Qed.

(** X22.  The request of [createPayment] names the caller: its
    [metadata] holds the uid that the service was called with and a
    copy of the shipping address of the input, and every key that
    [preferences] sets has the value of [preferences]; a key of the
    input is passed on when [preferences] does not set it. *)
Theorem preference_body_precedence dto uid :
  property "metadata" (preference_body dto uid)
  = Some (JObj {[ "uid" := JNum uid;
                  "shippingAddress" :=
                    JObj (spread (dto !! "shippingAddress")) ]})
  ∧ (∀ k v, k ≠ "metadata" → preferences !! k = Some v →
            property k (preference_body dto uid) = Some v)
  ∧ (∀ k, k ≠ "metadata" → preferences !! k = None →
          property k (preference_body dto uid) = dto !! k).
Proof.
  split; [|split].
  - simpl. by rewrite lookup_insert_eq.
  - intros k v Hk Hp. by rewrite preference_body_lookup, Hp.
  - intros k Hk Hp. by rewrite preference_body_lookup, Hp.
Qed.

End Payments.

(** ** The payment service at work *)

Lemma order_takes_stock_witness :
  let run :=
    createOrderAfterPayment mercadopago gateway (digits None) (λ _, true)
      77 shelves in
  run.1 = Done tt
  ∧ ∃ p,
      gateway (payment_request mercadopago 77) = IsPayment p
      ∧ orders run.2 = (orders shelves ++ [createOrder (digits None) p])%list
      ∧ ∀ b, books run.2 !! b
             = (λ stock, stock - ordered b (items p)) <$> books shelves !! b.
Proof.
  cbv zeta. split; [by vm_compute|].
  apply (order_takes_stock mercadopago gateway (digits None) (λ _, true)).
  by vm_compute.
Defined.

Lemma order_is_created_again_witness :
  let run :=
    createOrderAfterPayment mercadopago gateway (digits None) (λ _, true)
      77 shelves in
  run.1 = Done tt
  ∧ ∃ p shop2,
      gateway (payment_request mercadopago 77) = IsPayment p
      ∧ createOrderAfterPayment mercadopago gateway (digits None) (λ _, true)
          77 run.2 = (Done tt, shop2)
      ∧ orders shop2
        = (orders shelves
           ++ [createOrder (digits None) p; createOrder (digits None) p])%list
      ∧ ∀ b, books shop2 !! b
             = (λ stock, stock - 2 * ordered b (items p))
               <$> books shelves !! b.
Proof.
  cbv zeta. split; [by vm_compute|].
  apply (order_is_created_again mercadopago gateway (digits None) (λ _, true)).
  by vm_compute.
Defined.

Lemma createPayment_ignores_overridden_input_witness :
  forged_cart !! "metadata" ≠ cart !! "metadata"
  ∧ forged_cart !! "notification_url" ≠ cart !! "notification_url"
  ∧ preference_request mercadopago checkout_preferences forged_cart 1
    = preference_request mercadopago checkout_preferences cart 1
  ∧ createPayment mercadopago checkout_preferences checkout forged_cart 1
    = createPayment mercadopago checkout_preferences checkout cart 1.
Proof.
  split; [by vm_compute|]. split; [by vm_compute|].
  apply createPayment_ignores_overridden_input.
  - by vm_compute.
  - intros k Hm Hp. unfold forged_cart.
    rewrite lookup_insert_ne by done.
    destruct (decide (k = "notification_url")) as [->|Hn].
    + by vm_compute in Hp.
    + by rewrite lookup_insert_ne.
Defined.
